(** * apriltag_ros: the continuous depth detector nodelet

    A shallow embedding of [apriltag_ros/src/continuous_depth_detector.cpp]
    and the properties of its callbacks.

    The nodelet is integration glue: it owns a [TagDetector], the last
    converted colour and depth images, two range bounds and a handful of ROS
    handles, and it reacts to three kinds of calls (a colour frame, a depth
    frame, a parameter-refresh request).  The model keeps that shape:

    - the members of [ContinuousDepthDetector] are the record [Session];
    - the function-local statics of the rosconsole macros are [Statics];
    - every callback is a computation in a small state / exception / writer
      monad [M]; what it writes is the list of [Event]s it performed (lock
      operations, calls into the collaborators, log lines, publications);
    - code of the package that lives outside this file ([TagDetector]) and
      the libraries it calls (cv_bridge) are the interface [Externals]. *)

From Stdlib Require Import QArith Qround ZArith List.
From Stdlib Require Import Floats.PrimFloat.
From stdpp Require Import gmap strings.

Local Open Scope string_scope.

(** ** The parameter server *)

(** Values of the ROS parameter server, by their XmlRpc type tag.  A C++
    [double] that comes from the parameter server or from a literal is only
    stored and passed on by this file, it is modelled by the rational it
    denotes; an [int] by its value in [Z].  The one place where the code
    computes on doubles is the clock of [ROS_WARN_THROTTLE]: there a double
    is a binary64 [float]. *)
Inductive XmlRpcValue : Type :=
| TypeBoolean (b : bool)
| TypeInt (i : Z)
| TypeDouble (d : Q)
| TypeString (s : string).

Abbreviation ParamStore := (gmap string XmlRpcValue).

(** roscpp narrows a stored double asked for as [int]:
    [if (fmod(d, 1.0) < 0.5) d = floor(d); else d = ceil(d); i = d;]
    where [fmod(d, 1.0)] is [d] minus [d] truncated towards zero.  The
    assignment [i = d] is undefined in C++ when the rounded double is out of
    the range of [int]; [out_of_range] is what the platform makes of it
    (x86-64 gives [INT_MIN], arm64 the nearest end of the range). *)
Definition fmod1 (d : Q) : Q :=
  (d - inject_Z (Z.quot (Qnum d) (Z.pos (Qden d))))%Q.

Definition INT_MIN : Z := -2147483648.
Definition INT_MAX : Z := 2147483647.

Definition double_to_int (out_of_range : Z -> Z) (d : Q) : Z :=
  let rounded := if Qlt_le_dec (fmod1 d) (1 # 2) then Qfloor d else Qceiling d in
  if (INT_MIN <=? rounded)%Z && (rounded <=? INT_MAX)%Z then rounded
  else out_of_range rounded.

(** An [int] handed to a parameter of type [uint32_t]. *)
Definition to_uint32 (i : Z) : Z := (i mod 2 ^ 32)%Z.

(** [NodeHandle::param<T>(name, var, default)]: the stored value when there
    is one of a type roscpp accepts for [T], the default otherwise. *)
Definition param_bool (pnh : ParamStore) (name : string) (default : bool) : bool :=
  match pnh !! name with
  | Some (TypeBoolean b) => b
  | _ => default
  end.

Definition param_int (out_of_range : Z -> Z)
    (pnh : ParamStore) (name : string) (default : Z) : Z :=
  match pnh !! name with
  | Some (TypeInt i) => i
  | Some (TypeDouble d) => double_to_int out_of_range d
  | _ => default
  end.

Definition param_double (pnh : ParamStore) (name : string) (default : Q) : Q :=
  match pnh !! name with
  | Some (TypeDouble d) => d
  | Some (TypeInt i) => inject_Z i
  | _ => default
  end.

Definition param_string (pnh : ParamStore) (name : string) (default : string) : string :=
  match pnh !! name with
  | Some (TypeString s) => s
  | _ => default
  end.

(** Modelled from the spec: [getAprilTagOption<bool>] is declared in the
    package's common header, which is not part of this file.  The spec
    describes the Parameter Store as a named key/value source queried at
    construction, and [publish_tag_detections_image] as one of its options;
    the call site hands the helper the node handle, the option name and the
    value to use when the option is absent. *)
Definition getAprilTagOption_bool
    (pnh : ParamStore) (param_name : string) (default_val : bool) : bool :=
  param_bool pnh param_name default_val.

(** ** ROS handles *)

(** A publisher handle.  A default-constructed handle is not bound to a topic
    and reports zero subscribers. *)
Inductive Publisher : Type :=
| NoPublisher
| Advertised (topic : string) (queue_size : Z).

Inductive Callback : Type := ImageCallback | DepthCallback.

Record Subscriber : Type := mkSubscriber {
  sub_topic : string;
  sub_queue_size : Z;
  sub_callback : Callback;
  sub_transport_hint : string
}.

(** What the ROS graph and clock look like when a callback runs: how many
    subscribers each topic has, and the double [ros::Time::now().toSec()]. *)
Record Env : Type := mkEnv {
  subscribers : string -> nat;
  now : float
}.

Definition getNumSubscribers (env : Env) (p : Publisher) : nat :=
  match p with
  | NoPublisher => 0
  | Advertised topic _ => subscribers env topic
  end.

(** ** Collaborators *)

(** The types and functions this file uses and does not define: ROS
    messages, cv_bridge, the package's [TagDetector], and the one conversion
    that C++ leaves to the platform. *)
Class Externals : Type := {
  Image : Type;                     (* sensor_msgs::Image *)
  CameraInfo : Type;                (* sensor_msgs::CameraInfo *)
  CvImage : Type;                   (* cv_bridge::CvImage *)
  AprilTagDetectionArray : Type;
  TagDetector : Type;
  encoding : Image -> string;
  (* cv_bridge::toCvCopy(source, encoding): [inl what] when it throws
     cv_bridge::Exception(what) *)
  toCvCopy : Image -> string -> string + CvImage;
  toImageMsg : CvImage -> Image;
  (* TagDetector::TagDetector(pnh) looks its parameters up in pnh *)
  new_TagDetector : ParamStore -> TagDetector;
  get_publish_tf : TagDetector -> bool;
  (* detectTags is not const: it returns the detector it leaves behind *)
  detectTags : TagDetector -> CvImage -> CvImage -> CameraInfo -> Q -> Q ->
               TagDetector * AprilTagDetectionArray;
  (* drawDetections draws on the image it is handed *)
  drawDetections : TagDetector -> CvImage -> CvImage;
  (* the int that the assignment of an integral double out of int's range
     leaves *)
  int_of_large_double : Z -> Z
}.

Section Detector.
Context `{Ext : Externals}.

(** ** The nodelet's members *)

Record Session : Type := mkSession {
  tag_detector_ : TagDetector;
  draw_tag_detections_image_ : bool;
  cv_image_ : option CvImage;
  cv_depth_ : option CvImage;
  depth_min_range_ : Q;
  depth_max_range_ : Q;
  camera_image_subscriber_ : Subscriber;
  depth_image_subscriber_ : Subscriber;
  tag_detections_publisher_ : Publisher;
  tag_detections_image_publisher_ : Publisher;
  refresh_params_service_ : string
}.

Definition set_tag_detector_ (td : TagDetector) (s : Session) : Session :=
  mkSession td (draw_tag_detections_image_ s) (cv_image_ s) (cv_depth_ s)
    (depth_min_range_ s) (depth_max_range_ s)
    (camera_image_subscriber_ s) (depth_image_subscriber_ s)
    (tag_detections_publisher_ s) (tag_detections_image_publisher_ s)
    (refresh_params_service_ s).

Definition set_cv_image_ (im : option CvImage) (s : Session) : Session :=
  mkSession (tag_detector_ s) (draw_tag_detections_image_ s) im (cv_depth_ s)
    (depth_min_range_ s) (depth_max_range_ s)
    (camera_image_subscriber_ s) (depth_image_subscriber_ s)
    (tag_detections_publisher_ s) (tag_detections_image_publisher_ s)
    (refresh_params_service_ s).

Definition set_cv_depth_ (im : option CvImage) (s : Session) : Session :=
  mkSession (tag_detector_ s) (draw_tag_detections_image_ s) (cv_image_ s) im
    (depth_min_range_ s) (depth_max_range_ s)
    (camera_image_subscriber_ s) (depth_image_subscriber_ s)
    (tag_detections_publisher_ s) (tag_detections_image_publisher_ s)
    (refresh_params_service_ s).

(** The statics hidden in [ROS_INFO_ONCE] and [ROS_WARN_THROTTLE].  They
    are function-local statics: there is one of each in the process, shared
    by every nodelet of this class that the process loads, and neither
    [onInit] nor any other function of the class resets them. *)
Record Statics : Type := mkStatics {
  info_once_hit : bool;
  warn_throttle_last_hit : float
}.

(** The statics of a process in which neither macro has been passed yet. *)
Definition initial_statics : Statics := mkStatics false 0.

Record World : Type := mkWorld {
  session : Session;
  statics : Statics
}.

(** ** Effects *)

Inductive Event : Type :=
| EvLock                                   (* detection_mutex_ acquired *)
| EvUnlock                                 (* detection_mutex_ released *)
| EvToCvCopy (source : Image) (enc : string)
| EvDetectTags (td : TagDetector) (image depth : CvImage)
               (camera_info : CameraInfo) (min_range max_range : Q)
| EvDrawDetections (td : TagDetector) (image : CvImage)
| EvPublishDetections (p : Publisher) (msg : AprilTagDetectionArray)
| EvPublishImage (p : Publisher) (msg : Image)
| EvError (text : string)
| EvWarn (stamp : float) (text : string)
| EvInfo (text : string).

Inductive Exn : Type :=
| cv_bridge_Exception (what : string).

Definition what (e : Exn) : string :=
  match e with cv_bridge_Exception w => w end.

(** The result of running a piece of code: how it left (by returning a value
    or by an exception in flight), the members and statics it leaves behind,
    and what it did, oldest event first. *)
Record Outcome (A : Type) : Type := mkOutcome {
  result : Exn + A;
  final : World;
  events : list Event
}.
Arguments mkOutcome {A} _ _ _.
Arguments result {A} _.
Arguments final {A} _.
Arguments events {A} _.

Definition M (A : Type) : Type := World -> Outcome A.

Definition ret {A} (a : A) : M A := fun w => mkOutcome (inr a) w [].

Definition bind {A B} (m : M A) (k : A -> M B) : M B := fun w =>
  match m w with
  | mkOutcome (inl e) w' evs => mkOutcome (inl e) w' evs
  | mkOutcome (inr a) w' evs =>
      match k a w' with
      | mkOutcome r w'' evs' => mkOutcome r w'' (evs ++ evs')
      end
  end.

Notation "x <- m ;; k" := (bind m (fun x => k))
  (at level 100, m at next level, right associativity).
Notation "m ;; k" := (bind m (fun _ => k))
  (at level 100, right associativity).

Definition throw {A} (e : Exn) : M A := fun w => mkOutcome (inl e) w [].

(** [try { body } catch (cv_bridge::Exception& e) { handler e }] *)
Definition try_catch {A} (body : M A) (handler : Exn -> M A) : M A := fun w =>
  match body w with
  | mkOutcome (inr a) w' evs => mkOutcome (inr a) w' evs
  | mkOutcome (inl (cv_bridge_Exception msg)) w' evs =>
      match handler (cv_bridge_Exception msg) w' with
      | mkOutcome r w'' evs' => mkOutcome r w'' (evs ++ evs')
      end
  end.

Definition emit (e : Event) : M unit := fun w => mkOutcome (inr tt) w [e].
Definition get_session : M Session := fun w => mkOutcome (inr (session w)) w [].
Definition modify_session (f : Session -> Session) : M unit := fun w =>
  mkOutcome (inr tt) (mkWorld (f (session w)) (statics w)) [].
Definition get_statics : M Statics := fun w => mkOutcome (inr (statics w)) w [].
Definition put_statics (st : Statics) : M unit := fun w =>
  mkOutcome (inr tt) (mkWorld (session w) st) [].

(** [std::scoped_lock<std::mutex> lock(detection_mutex_);] at the head of a
    function body: the mutex is taken there and released when the body is
    left, by [return], by falling off the end, or by an exception. *)
Definition scoped_lock {A} (body : M A) : M A := fun w =>
  match body w with
  | mkOutcome r w' evs => mkOutcome r w' (EvLock :: evs ++ [EvUnlock])
  end.

(** *** rosconsole *)

Definition ROS_ERROR (text : string) : M unit := emit (EvError text).

(** [ROS_INFO_ONCE]: a static flag, set at the first pass. *)
Definition ROS_INFO_ONCE (text : string) : M unit :=
  st <- get_statics ;;
  if info_once_hit st then ret tt
  else
    put_statics (mkStatics true (warn_throttle_last_hit st)) ;;
    emit (EvInfo text).

(** [ROSCONSOLE_THROTTLE_CHECK(now, last, period)]:
    [last + period <= now || now < last], on doubles: the sum is rounded to
    binary64 before it is compared. *)
Definition throttle_check (now_ last period : float) : bool :=
  ((last + period <=? now_) || (now_ <? last))%float.

(** [ROS_WARN_THROTTLE(period, text)]: a static [last_hit], initially 0.0;
    the line is printed, and [last_hit] moved to the current time, when the
    check passes (the logger is taken to be enabled at level WARN). *)
Definition ROS_WARN_THROTTLE (env : Env) (period : float) (text : string) : M unit :=
  st <- get_statics ;;
  if throttle_check (now env) (warn_throttle_last_hit st) period then
    put_statics (mkStatics (info_once_hit st) (now env)) ;;
    emit (EvWarn (now env) text)
  else ret tt.

(** *** Calls into the collaborators *)

Definition call_toCvCopy (source : Image) (enc : string) : M CvImage :=
  emit (EvToCvCopy source enc) ;;
  match toCvCopy source enc with
  | inl w => throw (cv_bridge_Exception w)
  | inr cv => ret cv
  end.

Definition call_detectTags (image depth : CvImage) (camera_info : CameraInfo)
    (min_range max_range : Q) : M AprilTagDetectionArray :=
  s <- get_session ;;
  emit (EvDetectTags (tag_detector_ s) image depth camera_info min_range max_range) ;;
  let '(td, arr) :=
    detectTags (tag_detector_ s) image depth camera_info min_range max_range in
  modify_session (set_tag_detector_ td) ;;
  ret arr.

(** [tag_detector_->drawDetections(cv_image_)]: [cv_image_] is a shared
    pointer, the drawing lands in the image the member points to. *)
Definition call_drawDetections (image : CvImage) : M CvImage :=
  s <- get_session ;;
  emit (EvDrawDetections (tag_detector_ s) image) ;;
  let drawn := drawDetections (tag_detector_ s) image in
  modify_session (set_cv_image_ (Some drawn)) ;;
  ret drawn.

Definition publish_detections (p : Publisher) (msg : AprilTagDetectionArray) : M unit :=
  emit (EvPublishDetections p msg).

Definition publish_image (p : Publisher) (msg : Image) : M unit :=
  emit (EvPublishImage p msg).

(** ** The nodelet *)

(** [onInit] (lines 40-78): the members as the function leaves them, given
    the contents of the private node handle's parameters.  [queue_size] is
    an [int]; [subscribeCamera] and [subscribe] take it as [uint32_t]. *)
Definition onInit (pnh : ParamStore) : Session :=
  let tag_detector := new_TagDetector pnh in
  let draw_tag_detections_image :=
    getAprilTagOption_bool pnh "publish_tag_detections_image" false in
  let transport_hint := param_string pnh "transport_hint" "raw" in
  let depth_transport_hint := param_string pnh "depth_transport_hint" "raw" in
  let depth_min_range := param_double pnh "depth_min_range" 0 in
  let depth_max_range := param_double pnh "depth_max_range" 10 in
  let queue_size := param_int int_of_large_double pnh "queue_size" 1 in
  {| tag_detector_ := tag_detector;
     draw_tag_detections_image_ := draw_tag_detections_image;
     cv_image_ := None;
     cv_depth_ := None;
     depth_min_range_ := depth_min_range;
     depth_max_range_ := depth_max_range;
     camera_image_subscriber_ :=
       mkSubscriber "color/image_rect" (to_uint32 queue_size) ImageCallback
         transport_hint;
     depth_image_subscriber_ :=
       mkSubscriber "depth/image_rect" (to_uint32 queue_size) DepthCallback
         depth_transport_hint;
     tag_detections_publisher_ := Advertised "tag_detections" 1;
     tag_detections_image_publisher_ :=
       if draw_tag_detections_image then Advertised "tag_detections_image" 1
       else NoPublisher;
     refresh_params_service_ := "refresh_tag_params" |}.

(** The nodelet right after [onInit], in a process whose statics are [st]:
    [initial_statics] for the first nodelet of a fresh process, whatever an
    earlier nodelet of the class left behind otherwise. *)
Definition initial_world (pnh : ParamStore) (st : Statics) : World :=
  mkWorld (onInit pnh) st.

(** [refreshTagParameters] (lines 80-88): a new [TagDetector] looks its
    parameters up again. *)
Definition refreshTagParameters (pnh : ParamStore) : M unit :=
  scoped_lock (
    modify_session (set_tag_detector_ (new_TagDetector pnh))).

(** [refreshParamsCallback] (lines 90-95): request and response are
    [std_srvs::Empty]. *)
Definition refreshParamsCallback (pnh : ParamStore) (req : unit) : M bool :=
  refreshTagParameters pnh ;;
  ret true.

(** The condition of the lazy-update [if] in [imageCallback] (lines
    105-107). *)
Definition skip_detection (env : Env) (s : Session) : bool :=
  (getNumSubscribers env (tag_detections_publisher_ s) =? 0)%nat
  && (getNumSubscribers env (tag_detections_image_publisher_ s) =? 0)%nat
  && negb (get_publish_tf (tag_detector_ s)).

(** [imageCallback] (lines 97-140).  Each [return] of the source is a
    branch that ends in [ret tt]. *)
Definition imageCallback (env : Env) (image_rect : Image)
    (camera_info : CameraInfo) : M unit :=
  scoped_lock (
    s <- get_session ;;
    if skip_detection env s then ret tt
    else
      converted <-
        try_catch
          (cv <- call_toCvCopy image_rect (encoding image_rect) ;;
           modify_session (set_cv_image_ (Some cv)) ;;
           ret (Some cv))
          (fun e =>
             ROS_ERROR ("cv_bridge exception: " +:+ what e) ;;
             ret None) ;;
      match converted with
      | None => ret tt
      | Some cv_image =>
          s <- get_session ;;
          match cv_depth_ s with
          | None =>
              ROS_WARN_THROTTLE env 2 "No depth image received. Can't find tags."
          | Some cv_depth =>
              arr <- call_detectTags cv_image cv_depth camera_info
                       (depth_min_range_ s) (depth_max_range_ s) ;;
              publish_detections (tag_detections_publisher_ s) arr ;;
              if draw_tag_detections_image_ s then
                drawn <- call_drawDetections cv_image ;;
                publish_image (tag_detections_image_publisher_ s) (toImageMsg drawn)
              else ret tt
          end
      end).

(** [depthCallback] (lines 141-155): [toCvCopy] with its default encoding,
    the empty string, which is passthrough. *)
Definition depthCallback (depth_rect : Image) : M unit :=
  try_catch
    (cv <- call_toCvCopy depth_rect "" ;;
     modify_session (set_cv_depth_ (Some cv)) ;;
     ROS_INFO_ONCE "Depth image for tags received.")
    (fun e => ROS_ERROR ("cv_bridge exception: " +:+ what e)).

End Detector.

Arguments mkOutcome {Ext A} _ _ _.
Arguments result {Ext A} _.
Arguments final {Ext A} _.
Arguments events {Ext A} _.

(** ** Sequences of calls *)

Section Calls.
Context `{Ext : Externals}.

(** What the ROS runtime can ask of the nodelet once [onInit] is done. *)
Inductive Call : Type :=
| ColorFrame (env : Env) (image_rect : Image) (camera_info : CameraInfo)
| DepthFrame (depth_rect : Image)
| RefreshRequest (pnh : ParamStore).

Definition dispatch (c : Call) : M unit :=
  match c with
  | ColorFrame env image_rect camera_info => imageCallback env image_rect camera_info
  | DepthFrame depth_rect => depthCallback depth_rect
  | RefreshRequest pnh => bind (refreshParamsCallback pnh tt) (fun _ => ret tt)
  end.

(** The calls of a history, one after the other; an exception that leaves a
    callback ends the run. *)
Fixpoint run (history : list Call) : M unit :=
  match history with
  | [] => ret tt
  | c :: rest => bind (dispatch c) (fun _ => run rest)
  end.

Definition is_DepthFrame (c : Call) : bool :=
  match c with DepthFrame _ => true | _ => false end.

(** *** Reading a list of events *)

(** The calls of [detectTags]: the detector called, and the range bounds it
    was handed. *)
Fixpoint decoder_calls (evs : list Event) : list (TagDetector * Q * Q) :=
  match evs with
  | [] => []
  | EvDetectTags td _ _ _ lo hi :: rest => (td, lo, hi) :: decoder_calls rest
  | _ :: rest => decoder_calls rest
  end.

Fixpoint published_detections (evs : list Event) : list AprilTagDetectionArray :=
  match evs with
  | [] => []
  | EvPublishDetections _ msg :: rest => msg :: published_detections rest
  | _ :: rest => published_detections rest
  end.

Fixpoint published_images (evs : list Event) : list Image :=
  match evs with
  | [] => []
  | EvPublishImage _ msg :: rest => msg :: published_images rest
  | _ :: rest => published_images rest
  end.

Fixpoint conversions (evs : list Event) : list Image :=
  match evs with
  | [] => []
  | EvToCvCopy source _ :: rest => source :: conversions rest
  | _ :: rest => conversions rest
  end.

Fixpoint warn_stamps (evs : list Event) : list float :=
  match evs with
  | [] => []
  | EvWarn stamp _ :: rest => stamp :: warn_stamps rest
  | _ :: rest => warn_stamps rest
  end.

Fixpoint lock_events (evs : list Event) : list Event :=
  match evs with
  | [] => []
  | EvLock :: rest => EvLock :: lock_events rest
  | EvUnlock :: rest => EvUnlock :: lock_events rest
  | _ :: rest => lock_events rest
  end.

(** A function body that runs under the mutex from its first to its last
    step. *)
Definition locked_throughout (evs : list Event) : Prop :=
  exists body, evs = EvLock :: body ++ [EvUnlock] /\ lock_events body = [].

(** [detection_mutex_] is a [std::mutex]: it cannot be taken while it is
    held.  A schedule of events, read from the state [held] of the mutex, is
    admissible when it respects that. *)
Fixpoint mutex_ok (held : bool) (evs : list Event) : bool :=
  match evs with
  | [] => true
  | EvLock :: rest => if held then false else mutex_ok true rest
  | EvUnlock :: rest => if held then mutex_ok false rest else false
  | _ :: rest => mutex_ok held rest
  end.

(** The schedules of two threads: every merge of their events that keeps
    the order within each thread. *)
Inductive interleave : list Event -> list Event -> list Event -> Prop :=
| interleave_done : interleave [] [] []
| interleave_left e xs ys zs :
    interleave xs ys zs -> interleave (e :: xs) ys (e :: zs)
| interleave_right e xs ys zs :
    interleave xs ys zs -> interleave xs (e :: ys) (e :: zs).

(** The depth frame that is current after a history that starts with [d]
    current: the last depth frame of the history that converted, if any. *)
Fixpoint depth_after (history : list Call) (d : option CvImage) : option CvImage :=
  match history with
  | [] => d
  | DepthFrame depth_rect :: rest =>
      match toCvCopy depth_rect "" with
      | inr cv => depth_after rest (Some cv)
      | inl _ => depth_after rest d
      end
  | _ :: rest => depth_after rest d
  end.

Definition has_depth (d : option CvImage) : bool :=
  match d with Some _ => true | None => false end.

(** The depth image of every call of [detectTags]. *)
Fixpoint decoder_depths (evs : list Event) : list CvImage :=
  match evs with
  | [] => []
  | EvDetectTags _ _ depth _ _ _ :: rest => depth :: decoder_depths rest
  | _ :: rest => decoder_depths rest
  end.

(** The publisher handles that [publish] was called on: with detections,
    and with images. *)
Fixpoint detection_publishers (evs : list Event) : list Publisher :=
  match evs with
  | [] => []
  | EvPublishDetections p _ :: rest => p :: detection_publishers rest
  | _ :: rest => detection_publishers rest
  end.

Fixpoint image_publishers (evs : list Event) : list Publisher :=
  match evs with
  | [] => []
  | EvPublishImage p _ :: rest => p :: image_publishers rest
  | _ :: rest => image_publishers rest
  end.

Fixpoint info_lines (evs : list Event) : list string :=
  match evs with
  | [] => []
  | EvInfo text :: rest => text :: info_lines rest
  | _ :: rest => info_lines rest
  end.

(** Time stamps each of which passes the throttle check against the one
    before it, the first one against [prev]. *)
Fixpoint throttled (period prev : float) (stamps : list float) : Prop :=
  match stamps with
  | [] => True
  | t :: rest => throttle_check t prev period = true /\ throttled period t rest
  end.

(** The members that only [onInit] writes. *)
Definition fixed_members (s : Session)
  : bool * Q * Q * Subscriber * Subscriber * Publisher * Publisher * string :=
  (draw_tag_detections_image_ s, depth_min_range_ s, depth_max_range_ s,
   camera_image_subscriber_ s, depth_image_subscriber_ s,
   tag_detections_publisher_ s, tag_detections_image_publisher_ s,
   refresh_params_service_ s).

End Calls.

(** ** Collaborators to run the nodelet on

    A small stand-in for cv_bridge and [TagDetector], so that the callbacks
    can be evaluated: an image is its encoding and its samples; conversion
    fails on an encoding it does not know; every colour sample is a tag id
    and the depth sample at the same place its range in millimetres; the
    detector reports the tags whose range lies within the bounds it is
    handed. *)
Module Sim.

Record image : Type := mk_image {
  im_encoding : string;
  im_data : list Z
}.

Definition known_encodings : list string := ["mono8"; "rgb8"; "16UC1"].

Definition sim_toCvCopy (source : image) (enc : string) : string + image :=
  if bool_decide (im_encoding source ∈ known_encodings) then
    inr (mk_image (if bool_decide (enc = "") then im_encoding source else enc)
                  (im_data source))
  else inl ("Unrecognized image encoding [" +:+ im_encoding source +:+ "]").

Record detector : Type := mk_detector {
  publish_tf : bool;
  tag_size : Q;
  last_ids : list Z
}.

Definition sim_new_TagDetector (pnh : ParamStore) : detector :=
  mk_detector (param_bool pnh "publish_tf" false) (param_double pnh "tag_size" 1) [].

Definition in_range (lo hi : Q) (mm : Z) : bool :=
  Qle_bool lo (mm # 1000) && Qle_bool (mm # 1000) hi.

Definition sim_detectTags (td : detector) (color depth : image) (camera_info : unit)
    (lo hi : Q) : detector * list (Z * Q) :=
  let ids :=
    map fst (List.filter (fun p => in_range lo hi (snd p))
                         (combine (im_data color) (im_data depth))) in
  (mk_detector (publish_tf td) (tag_size td) ids,
   map (fun id => (id, tag_size td)) ids).

Definition sim_drawDetections (td : detector) (color : image) : image :=
  mk_image (im_encoding color) (im_data color ++ last_ids td).

Definition externals : Externals := {|
  Image := image;
  CameraInfo := unit;
  CvImage := image;
  AprilTagDetectionArray := list (Z * Q);
  TagDetector := detector;
  encoding := im_encoding;
  toCvCopy := sim_toCvCopy;
  toImageMsg := fun cv => cv;
  new_TagDetector := sim_new_TagDetector;
  get_publish_tf := publish_tf;
  detectTags := sim_detectTags;
  drawDetections := sim_drawDetections;
  int_of_large_double := fun _ => INT_MIN
|}.

(** Parameter servers, frames and ROS graphs used below. *)
Definition no_params : ParamStore := ∅.

Definition params_wide : ParamStore :=
  <["depth_max_range" := TypeDouble 10]>
  (<["tag_size" := TypeDouble (1 # 10)]> ∅).

Definition params_narrow : ParamStore :=
  <["depth_max_range" := TypeDouble 5]>
  (<["tag_size" := TypeDouble (2 # 10)]> ∅).

Definition params_draw : ParamStore :=
  <["publish_tag_detections_image" := TypeBoolean true]> ∅.

Definition params_tf : ParamStore :=
  <["publish_tf" := TypeBoolean true]> ∅.

Definition color_ok : image := mk_image "mono8" [7%Z].
Definition color_bad : image := mk_image "yuv999" [7%Z].
Definition depth_7m : image := mk_image "16UC1" [7000%Z].
Definition depth_2m : image := mk_image "16UC1" [2000%Z].
Definition depth_bad : image := mk_image "bogus" [1%Z].

(** One subscriber on the detections topic, none on the image topic. *)
Definition one_listener (t : float) : Env :=
  mkEnv (fun topic => if bool_decide (topic = "tag_detections") then 1%nat else 0%nat) t.

Definition nobody (t : float) : Env := mkEnv (fun _ => 0%nat) t.

End Sim.

(** * Properties *)

Section Properties.
Context `{Ext : Externals}.

Ltac unfold_M :=
  cbv [imageCallback depthCallback refreshParamsCallback refreshTagParameters
       scoped_lock try_catch bind ret throw emit get_session modify_session
       get_statics put_statics ROS_ERROR ROS_INFO_ONCE ROS_WARN_THROTTLE
       call_toCvCopy call_detectTags call_drawDetections
       publish_detections publish_image];
  cbn [result final events session statics app].

(** ** The four ways through [imageCallback] *)

Lemma imageCallback_skip env image_rect camera_info w :
  skip_detection env (session w) = true ->
  imageCallback env image_rect camera_info w
  = mkOutcome (inr tt) w [EvLock; EvUnlock].
Proof.
  intros Hskip. unfold_M. rewrite Hskip. reflexivity.
Qed.

Lemma imageCallback_decode_error env image_rect camera_info w msg :
  skip_detection env (session w) = false ->
  toCvCopy image_rect (encoding image_rect) = inl msg ->
  imageCallback env image_rect camera_info w
  = mkOutcome (inr tt) w
      [EvLock; EvToCvCopy image_rect (encoding image_rect);
       EvError ("cv_bridge exception: " +:+ msg); EvUnlock].
Proof.
  intros Hskip Hconv. unfold_M. rewrite Hskip, Hconv. reflexivity.
Qed.

Lemma imageCallback_no_depth env image_rect camera_info w cv :
  skip_detection env (session w) = false ->
  toCvCopy image_rect (encoding image_rect) = inr cv ->
  cv_depth_ (session w) = None ->
  imageCallback env image_rect camera_info w
  = if throttle_check (now env) (warn_throttle_last_hit (statics w)) 2 then
      mkOutcome (inr tt)
        (mkWorld (set_cv_image_ (Some cv) (session w))
                 (mkStatics (info_once_hit (statics w)) (now env)))
        [EvLock; EvToCvCopy image_rect (encoding image_rect);
         EvWarn (now env) "No depth image received. Can't find tags."; EvUnlock]
    else
      mkOutcome (inr tt)
        (mkWorld (set_cv_image_ (Some cv) (session w)) (statics w))
        [EvLock; EvToCvCopy image_rect (encoding image_rect); EvUnlock].
Proof.
  intros Hskip Hconv Hdepth. unfold_M. rewrite Hskip, Hconv. cbn.
  rewrite Hdepth.
  destruct (throttle_check _ _ _); reflexivity.
Qed.

Lemma imageCallback_completed env image_rect camera_info w cv depth :
  skip_detection env (session w) = false ->
  toCvCopy image_rect (encoding image_rect) = inr cv ->
  cv_depth_ (session w) = Some depth ->
  let s := session w in
  let found :=
    detectTags (tag_detector_ s) cv depth camera_info
               (depth_min_range_ s) (depth_max_range_ s) in
  let s' := set_tag_detector_ (fst found) (set_cv_image_ (Some cv) s) in
  let drawn := drawDetections (fst found) cv in
  imageCallback env image_rect camera_info w
  = if draw_tag_detections_image_ s then
      mkOutcome (inr tt)
        (mkWorld (set_cv_image_ (Some drawn) s') (statics w))
        [EvLock; EvToCvCopy image_rect (encoding image_rect);
         EvDetectTags (tag_detector_ s) cv depth camera_info
                      (depth_min_range_ s) (depth_max_range_ s);
         EvPublishDetections (tag_detections_publisher_ s) (snd found);
         EvDrawDetections (fst found) cv;
         EvPublishImage (tag_detections_image_publisher_ s) (toImageMsg drawn);
         EvUnlock]
    else
      mkOutcome (inr tt) (mkWorld s' (statics w))
        [EvLock; EvToCvCopy image_rect (encoding image_rect);
         EvDetectTags (tag_detector_ s) cv depth camera_info
                      (depth_min_range_ s) (depth_max_range_ s);
         EvPublishDetections (tag_detections_publisher_ s) (snd found);
         EvUnlock].
Proof.
  intros Hskip Hconv Hdepth s found s' drawn.
  subst drawn s' found s. unfold_M. rewrite Hskip, Hconv. cbn.
  rewrite Hdepth.
  destruct (detectTags _ _ _ _ _ _) as [td arr]. cbn.
  destruct (draw_tag_detections_image_ (session w)); reflexivity.
Qed.

(** ** The two ways through [depthCallback] *)

Lemma depthCallback_converted depth_rect w cv :
  toCvCopy depth_rect "" = inr cv ->
  depthCallback depth_rect w
  = if info_once_hit (statics w) then
      mkOutcome (inr tt)
        (mkWorld (set_cv_depth_ (Some cv) (session w)) (statics w))
        [EvToCvCopy depth_rect ""]
    else
      mkOutcome (inr tt)
        (mkWorld (set_cv_depth_ (Some cv) (session w))
                 (mkStatics true (warn_throttle_last_hit (statics w))))
        [EvToCvCopy depth_rect ""; EvInfo "Depth image for tags received."].
Proof.
  intros Hconv. unfold_M. rewrite Hconv. cbn.
  destruct (info_once_hit (statics w)); reflexivity.
Qed.

Lemma depthCallback_decode_error depth_rect w msg :
  toCvCopy depth_rect "" = inl msg ->
  depthCallback depth_rect w
  = mkOutcome (inr tt) w
      [EvToCvCopy depth_rect ""; EvError ("cv_bridge exception: " +:+ msg)].
Proof.
  intros Hconv. unfold_M. rewrite Hconv. reflexivity.
Qed.

(** ** The refresh *)

Lemma refreshTagParameters_run pnh w :
  refreshTagParameters pnh w
  = mkOutcome (inr tt)
      (mkWorld (set_tag_detector_ (new_TagDetector pnh) (session w)) (statics w))
      [EvLock; EvUnlock].
Proof. reflexivity. Qed.

Lemma refreshParamsCallback_run pnh req w :
  refreshParamsCallback pnh req w
  = mkOutcome (inr true)
      (mkWorld (set_tag_detector_ (new_TagDetector pnh) (session w)) (statics w))
      [EvLock; EvUnlock].
Proof. reflexivity. Qed.

(** ** What every call leaves alone *)

Lemma imageCallback_returns env image_rect camera_info w :
  result (imageCallback env image_rect camera_info w) = inr tt.
Proof.
  destruct (skip_detection env (session w)) eqn:Hskip.
  { rewrite imageCallback_skip by assumption. reflexivity. }
  destruct (toCvCopy image_rect (encoding image_rect)) as [msg | cv] eqn:Hconv.
  { rewrite (imageCallback_decode_error _ _ _ _ msg) by assumption. reflexivity. }
  destruct (cv_depth_ (session w)) as [depth |] eqn:Hdepth.
  - rewrite (imageCallback_completed _ _ _ _ cv depth) by assumption.
    destruct (draw_tag_detections_image_ (session w)); reflexivity.
  - rewrite (imageCallback_no_depth _ _ _ _ cv) by assumption.
    destruct (throttle_check _ _ _); reflexivity.
Qed.

Lemma imageCallback_members env image_rect camera_info w :
  let o := imageCallback env image_rect camera_info w in
  fixed_members (session (final o)) = fixed_members (session w)
  /\ cv_depth_ (session (final o)) = cv_depth_ (session w)
  /\ info_once_hit (statics (final o)) = info_once_hit (statics w).
Proof.
  cbv zeta.
  destruct (skip_detection env (session w)) eqn:Hskip.
  { rewrite imageCallback_skip by assumption. auto. }
  destruct (toCvCopy image_rect (encoding image_rect)) as [msg | cv] eqn:Hconv.
  { rewrite (imageCallback_decode_error _ _ _ _ msg) by assumption. auto. }
  destruct (cv_depth_ (session w)) as [depth |] eqn:Hdepth.
  - rewrite (imageCallback_completed _ _ _ _ cv depth) by assumption.
    destruct (draw_tag_detections_image_ (session w)); cbn; auto.
  - rewrite (imageCallback_no_depth _ _ _ _ cv) by assumption.
    destruct (throttle_check _ _ _); cbn; auto.
Qed.

(** A colour frame prints the warning at most once, and only when the
    throttle check passes; [last_hit] then is the time of that line. *)
Lemma imageCallback_warns env image_rect camera_info w :
  let o := imageCallback env image_rect camera_info w in
  (warn_stamps (events o) = []
   /\ warn_throttle_last_hit (statics (final o)) = warn_throttle_last_hit (statics w))
  \/ (warn_stamps (events o) = [now env]
      /\ warn_throttle_last_hit (statics (final o)) = now env
      /\ throttle_check (now env) (warn_throttle_last_hit (statics w)) 2 = true).
Proof.
  cbv zeta.
  destruct (skip_detection env (session w)) eqn:Hskip.
  { rewrite imageCallback_skip by assumption. left. auto. }
  destruct (toCvCopy image_rect (encoding image_rect)) as [msg | cv] eqn:Hconv.
  { rewrite (imageCallback_decode_error _ _ _ _ msg) by assumption. left. auto. }
  destruct (cv_depth_ (session w)) as [depth |] eqn:Hdepth.
  - rewrite (imageCallback_completed _ _ _ _ cv depth) by assumption.
    destruct (draw_tag_detections_image_ (session w)); left; auto.
  - rewrite (imageCallback_no_depth _ _ _ _ cv) by assumption.
    destruct (throttle_check _ _ _) eqn:Hcheck; [right | left]; auto.
Qed.

Lemma depthCallback_returns depth_rect w :
  result (depthCallback depth_rect w) = inr tt.
Proof.
  destruct (toCvCopy depth_rect "") as [msg | cv] eqn:Hconv.
  - rewrite (depthCallback_decode_error _ _ msg) by assumption. reflexivity.
  - rewrite (depthCallback_converted _ _ cv) by assumption.
    destruct (info_once_hit (statics w)); reflexivity.
Qed.

Lemma depthCallback_members depth_rect w :
  let o := depthCallback depth_rect w in
  fixed_members (session (final o)) = fixed_members (session w)
  /\ tag_detector_ (session (final o)) = tag_detector_ (session w)
  /\ cv_image_ (session (final o)) = cv_image_ (session w)
  /\ warn_throttle_last_hit (statics (final o)) = warn_throttle_last_hit (statics w)
  /\ warn_stamps (events o) = [].
Proof.
  cbv zeta.
  destruct (toCvCopy depth_rect "") as [msg | cv] eqn:Hconv.
  - rewrite (depthCallback_decode_error _ _ msg) by assumption. auto.
  - rewrite (depthCallback_converted _ _ cv) by assumption.
    destruct (info_once_hit (statics w)); cbn; auto.
Qed.

(** ** Histories *)

Lemma dispatch_refresh pnh w :
  dispatch (RefreshRequest pnh) w
  = mkOutcome (inr tt)
      (mkWorld (set_tag_detector_ (new_TagDetector pnh) (session w)) (statics w))
      [EvLock; EvUnlock].
Proof. reflexivity. Qed.

Lemma dispatch_returns c w : result (dispatch c w) = inr tt.
Proof.
  destruct c; cbn [dispatch].
  - apply imageCallback_returns.
  - apply depthCallback_returns.
  - reflexivity.
Qed.

Lemma run_cons c rest w :
  run (c :: rest) w
  = let o := dispatch c w in
    let o' := run rest (final o) in
    mkOutcome (result o') (final o') (events o ++ events o').
Proof.
  cbn [run]. unfold bind.
  pose proof (dispatch_returns c w) as Hret.
  destruct (dispatch c w) as [r w' evs]. cbn in Hret. subst r.
  cbn. destruct (run rest w'); reflexivity.
Qed.

Lemma run_returns history w : result (run history w) = inr tt.
Proof.
  revert w. induction history as [| c rest IH]; intros w.
  - reflexivity.
  - rewrite run_cons. cbn. apply IH.
Qed.

Lemma dispatch_fixed_members c w :
  fixed_members (session (final (dispatch c w))) = fixed_members (session w).
Proof.
  destruct c; cbn [dispatch].
  - apply imageCallback_members.
  - apply depthCallback_members.
  - reflexivity.
Qed.

Lemma run_fixed_members history w :
  fixed_members (session (final (run history w))) = fixed_members (session w).
Proof.
  revert w. induction history as [| c rest IH]; intros w.
  - reflexivity.
  - rewrite run_cons. cbn. rewrite IH. apply dispatch_fixed_members.
Qed.

Lemma run_without_depth history w :
  forallb (fun c => negb (is_DepthFrame c)) history = true ->
  cv_depth_ (session (final (run history w))) = cv_depth_ (session w).
Proof.
  revert w. induction history as [| c rest IH]; intros w Hnone.
  - reflexivity.
  - cbn [forallb] in Hnone. apply andb_prop in Hnone as [Hc Hrest].
    rewrite run_cons. cbn. rewrite IH by assumption.
    destruct c; cbn [dispatch]; try discriminate.
    + apply imageCallback_members.
    + reflexivity.
Qed.

Lemma warn_stamps_app (xs ys : list Event) :
  warn_stamps (xs ++ ys) = (warn_stamps xs ++ warn_stamps ys)%list.
Proof.
  induction xs as [| e xs IH]; [reflexivity |].
  destruct e; cbn; rewrite ?IH; reflexivity.
Qed.

Lemma last_after_stamp (t d : float) (stamps : list float) :
  default d (last (t :: stamps)) = default t (last stamps).
Proof.
  revert t d. induction stamps as [| t' rest IH]; intros t d; [reflexivity |].
  change (last (t :: t' :: rest)) with (last (t' :: rest)).
  rewrite (IH t' d), (IH t' t). reflexivity.
Qed.

(** [last_hit] is the time of the last warning printed, and what it was
    before when none has been printed since. *)
Lemma run_last_hit history :
  forall w,
    let o := run history w in
    warn_throttle_last_hit (statics (final o))
    = default (warn_throttle_last_hit (statics w)) (last (warn_stamps (events o))).
Proof.
  induction history as [| c rest IH]; intros w; [reflexivity |].
  cbv zeta. rewrite run_cons. cbn [final events]. rewrite warn_stamps_app, IH.
  destruct c as [env image_rect camera_info | depth_rect | pnh].
  - cbn [dispatch].
    destruct (imageCallback_warns env image_rect camera_info w)
      as [[Hnone Hsame] | [Hone [Hmoved _]]].
    + rewrite Hnone, Hsame. reflexivity.
    + rewrite Hone, Hmoved. cbn [app]. rewrite last_after_stamp. reflexivity.
  - cbn [dispatch].
    destruct (depthCallback_members depth_rect w) as [_ [_ [_ [Hsame Hnone]]]].
    rewrite Hnone, Hsame. reflexivity.
  - rewrite dispatch_refresh. reflexivity.
Qed.

(** ** Locking *)

Lemma imageCallback_locked env image_rect camera_info w :
  locked_throughout (events (imageCallback env image_rect camera_info w)).
Proof.
  unfold locked_throughout.
  destruct (skip_detection env (session w)) eqn:Hskip.
  { rewrite imageCallback_skip by assumption. exists []. auto. }
  destruct (toCvCopy image_rect (encoding image_rect)) as [msg | cv] eqn:Hconv.
  { rewrite (imageCallback_decode_error _ _ _ _ msg) by assumption.
    eexists [_; _]. cbn. auto. }
  destruct (cv_depth_ (session w)) as [depth |] eqn:Hdepth.
  - rewrite (imageCallback_completed _ _ _ _ cv depth) by assumption.
    destruct (draw_tag_detections_image_ (session w)).
    + eexists [_; _; _; _; _]. cbn. auto.
    + eexists [_; _; _]. cbn. auto.
  - rewrite (imageCallback_no_depth _ _ _ _ cv) by assumption.
    destruct (throttle_check _ _ _).
    + eexists [_; _]. cbn. auto.
    + eexists [_]. cbn. auto.
Qed.

Lemma refreshTagParameters_locked pnh w :
  locked_throughout (events (refreshTagParameters pnh w)).
Proof. exists []. auto. Qed.

Lemma depthCallback_lock_events depth_rect w :
  lock_events (events (depthCallback depth_rect w)) = [].
Proof.
  destruct (toCvCopy depth_rect "") as [msg | cv] eqn:Hconv.
  - rewrite (depthCallback_decode_error _ _ msg) by assumption. reflexivity.
  - rewrite (depthCallback_converted _ _ cv) by assumption.
    destruct (info_once_hit (statics w)); reflexivity.
Qed.

(** Two bodies that run under the mutex from start to end cannot overlap:
    an admissible schedule runs one of them, then the other. *)
Lemma interleave_nil_l ys zs : interleave [] ys zs -> zs = ys.
Proof.
  revert zs. induction ys as [| y ys IH]; intros zs Hmerge; inversion Hmerge; subst.
  - reflexivity.
  - f_equal. apply IH. assumption.
Qed.

Lemma interleave_sym xs ys zs : interleave xs ys zs -> interleave ys xs zs.
Proof. induction 1; constructor; assumption. Qed.

Lemma holder_runs_first body other zs :
  lock_events body = [] ->
  interleave (body ++ [EvUnlock]) (EvLock :: other) zs ->
  mutex_ok true zs = true ->
  zs = (body ++ [EvUnlock] ++ EvLock :: other)%list.
Proof.
  revert zs. induction body as [| e body IH]; intros zs Hquiet Hmerge Hok.
  - cbn in *. inversion Hmerge; subst.
    + f_equal. apply interleave_nil_l. assumption.
    + cbn in Hok. discriminate.
  - cbn [app] in *. inversion Hmerge; subst.
    + f_equal. apply IH.
      * destruct e; cbn in Hquiet; solve [discriminate | assumption].
      * assumption.
      * destruct e; cbn in Hquiet, Hok; solve [discriminate | assumption].
    + cbn in Hok. discriminate.
Qed.

Lemma locked_bodies_serialize t1 t2 zs :
  locked_throughout t1 ->
  locked_throughout t2 ->
  interleave t1 t2 zs ->
  mutex_ok false zs = true ->
  zs = (t1 ++ t2)%list \/ zs = (t2 ++ t1)%list.
Proof.
  intros [b1 [-> Hq1]] [b2 [-> Hq2]] Hmerge Hok.
  inversion Hmerge; subst.
  - left. cbn [app]. f_equal. cbn in Hok.
    rewrite (holder_runs_first b1 (b2 ++ [EvUnlock]) zs0) by assumption.
    rewrite <- app_assoc. reflexivity.
  - right. cbn [app]. f_equal. cbn in Hok.
    apply interleave_sym in H3.
    rewrite (holder_runs_first b2 (b1 ++ [EvUnlock]) zs0) by assumption.
    rewrite <- app_assoc. reflexivity.
Qed.

(** A cycle and a refresh exclude each other. *)
Lemma cycle_and_refresh_serialize env image_rect camera_info pnh w w' zs :
  let cycle := events (imageCallback env image_rect camera_info w) in
  let refresh := events (refreshTagParameters pnh w') in
  interleave cycle refresh zs ->
  mutex_ok false zs = true ->
  zs = (cycle ++ refresh)%list \/ zs = (refresh ++ cycle)%list.
Proof.
  intros cycle refresh. apply locked_bodies_serialize.
  - apply imageCallback_locked.
  - apply refreshTagParameters_locked.
Qed.

(** The depth callback never waits for the mutex: any schedule that puts its
    events somewhere into an admissible schedule is admissible. *)
Lemma depthCallback_never_blocked depth_rect w other zs held :
  interleave (events (depthCallback depth_rect w)) other zs ->
  mutex_ok held zs = mutex_ok held other.
Proof.
  pose proof (depthCallback_lock_events depth_rect w) as Hquiet.
  generalize dependent (events (depthCallback depth_rect w)).
  intros mine Hquiet Hmerge. revert held.
  induction Hmerge as [| e xs ys zs Hmerge IH | e xs ys zs Hmerge IH]; intros held.
  - reflexivity.
  - destruct e; cbn in Hquiet; try discriminate; cbn; apply IH; assumption.
  - destruct e; cbn; try (destruct held); try reflexivity; apply IH; assumption.
Qed.

(** ** The claims *)


(** C2.  A colour frame that finds no subscriber on the detections topic,
    none on the annotated-image topic, and a detector that does not publish
    tf, returns at once: it takes and releases the mutex and does nothing
    else; no conversion, no call of the decoder, no publication, and no
    member or static is changed. *)
Theorem imageCallback_skips_unobserved :
  forall (env : Env) (image_rect : Image) (camera_info : CameraInfo) (w : World),
    getNumSubscribers env (tag_detections_publisher_ (session w)) = 0%nat ->
    getNumSubscribers env (tag_detections_image_publisher_ (session w)) = 0%nat ->
    get_publish_tf (tag_detector_ (session w)) = false ->
    let o := imageCallback env image_rect camera_info w in
    result o = inr tt
    /\ final o = w
    /\ events o = [EvLock; EvUnlock]
    /\ conversions (events o) = []
    /\ decoder_calls (events o) = []
    /\ published_detections (events o) = []
    /\ published_images (events o) = [].
Proof.
  intros env image_rect camera_info w Hdet Himg Htf o.
  assert (Hskip : skip_detection env (session w) = true).
  { unfold skip_detection. rewrite Hdet, Himg, Htf. reflexivity. }
  subst o. rewrite imageCallback_skip by assumption.
  repeat split.
Qed.

(** C4, as amended.  A colour frame that passes the gate, converts, and
    arrives at a nodelet that was never handed a depth frame since its
    [onInit], ends at the no-depth exit: the callback returns, the decoder
    is not called and nothing is published.  The warning is not printed at
    every call: it is printed exactly when rosconsole's throttle check
    passes, in double arithmetic, against [last_hit], and [last_hit] is the
    time of the last warning printed since [onInit], or what the process
    had there at [onInit] when none has been printed since. *)
Theorem color_frame_before_any_depth_frame :
  forall (pnh : ParamStore) (st : Statics) (history : list Call)
         (env : Env) (image_rect : Image) (camera_info : CameraInfo) (cv : CvImage),
    forallb (fun c => negb (is_DepthFrame c)) history = true ->
    let before := run history (initial_world pnh st) in
    skip_detection env (session (final before)) = false ->
    toCvCopy image_rect (encoding image_rect) = inr cv ->
    let o := imageCallback env image_rect camera_info (final before) in
    let last_hit := warn_throttle_last_hit (statics (final before)) in
    let warned := throttle_check (now env) last_hit 2 in
    result o = inr tt
    /\ events o
       = ([EvLock; EvToCvCopy image_rect (encoding image_rect)]
          ++ (if warned
              then [EvWarn (now env) "No depth image received. Can't find tags."]
              else [])
          ++ [EvUnlock])%list
    /\ decoder_calls (events o) = []
    /\ published_detections (events o) = []
    /\ published_images (events o) = []
    /\ last_hit
       = default (warn_throttle_last_hit st) (last (warn_stamps (events before)))
    /\ warn_throttle_last_hit (statics (final o))
       = (if warned then now env else last_hit).
Proof.
  intros pnh st history env image_rect camera_info cv Hnone before Hskip Hconv
         o last_hit warned.
  assert (Hdepth : cv_depth_ (session (final before)) = None).
  { subst before. rewrite run_without_depth by assumption. reflexivity. }
  assert (Hlast : last_hit
                  = default (warn_throttle_last_hit st)
                      (last (warn_stamps (events before)))).
  { subst last_hit before. rewrite run_last_hit. reflexivity. }
  subst o. rewrite (imageCallback_no_depth _ _ _ _ cv) by assumption.
  fold last_hit. fold warned.
  split; [destruct warned; reflexivity |].
  split; [destruct warned; reflexivity |].
  split; [destruct warned; reflexivity |].
  split; [destruct warned; reflexivity |].
  split; [destruct warned; reflexivity |].
  split; [exact Hlast |].
  destruct warned; reflexivity.
Qed.

(** C5.  A colour frame whose conversion throws: the callback returns
    normally, the decoder is not called, nothing is published, and members
    and statics are as before.  When the frame passes the gate, so that the
    conversion is attempted, the exception is caught and logged with
    ROS_ERROR; when it does not, the frame is not looked at. *)
Theorem imageCallback_contains_decode_error :
  forall (env : Env) (image_rect : Image) (camera_info : CameraInfo) (w : World)
         (msg : string),
    toCvCopy image_rect (encoding image_rect) = inl msg ->
    let o := imageCallback env image_rect camera_info w in
    result o = inr tt
    /\ final o = w
    /\ decoder_calls (events o) = []
    /\ published_detections (events o) = []
    /\ published_images (events o) = []
    /\ events o
       = if skip_detection env (session w) then [EvLock; EvUnlock]
         else [EvLock; EvToCvCopy image_rect (encoding image_rect);
               EvError ("cv_bridge exception: " +:+ msg); EvUnlock].
Proof.
  intros env image_rect camera_info w msg Hconv o. subst o.
  destruct (skip_detection env (session w)) eqn:Hskip.
  - rewrite imageCallback_skip by assumption. repeat split.
  - rewrite (imageCallback_decode_error _ _ _ _ msg) by assumption.
    repeat split.
Qed.

(** C6, as amended.  In a completed cycle the annotated image is published
    exactly when the member [draw_tag_detections_image_] is set, that is
    when the option publish_tag_detections_image was true at [onInit]; how
    many subscribers the image topic has plays no part. *)
Theorem annotated_image_follows_flag :
  forall (env : Env) (image_rect : Image) (camera_info : CameraInfo) (w : World)
         (cv depth : CvImage),
    skip_detection env (session w) = false ->
    toCvCopy image_rect (encoding image_rect) = inr cv ->
    cv_depth_ (session w) = Some depth ->
    let s := session w in
    let found :=
      detectTags (tag_detector_ s) cv depth camera_info
                 (depth_min_range_ s) (depth_max_range_ s) in
    let o := imageCallback env image_rect camera_info w in
    published_detections (events o) = [snd found]
    /\ published_images (events o)
       = if draw_tag_detections_image_ s
         then [toImageMsg (drawDetections (fst found) cv)]
         else [].
Proof.
  intros env image_rect camera_info w cv depth Hskip Hconv Hdepth s found o.
  subst o found s.
  rewrite (imageCallback_completed _ _ _ _ cv depth) by assumption.
  destruct (draw_tag_detections_image_ (session w)); split; reflexivity.
Qed.

(** C7, as amended.  A depth frame that converts becomes the current depth
    frame; one whose conversion throws leaves the current depth frame as it
    was.  Either way the callback returns normally, no other member is
    changed, the decoder is not called and nothing is published. *)
Theorem depthCallback_effect :
  forall (depth_rect : Image) (w : World),
    let o := depthCallback depth_rect w in
    result o = inr tt
    /\ cv_depth_ (session (final o))
       = match toCvCopy depth_rect "" with
         | inr cv => Some cv
         | inl _ => cv_depth_ (session w)
         end
    /\ session (final o) = set_cv_depth_ (cv_depth_ (session (final o))) (session w)
    /\ decoder_calls (events o) = []
    /\ published_detections (events o) = []
    /\ published_images (events o) = [].
Proof.
  intros depth_rect w o. subst o.
  destruct (toCvCopy depth_rect "") as [msg | cv] eqn:Hconv.
  - rewrite (depthCallback_decode_error _ _ msg) by assumption.
    cbn. destruct w as [[] ?]. repeat split.
  - rewrite (depthCallback_converted _ _ cv) by assumption.
    destruct (info_once_hit (statics w)); cbn; repeat split.
Qed.

(** C8.  With none of the options defined on the parameter server, [onInit]
    leaves the defaults: no annotated image (and no publisher for it), range
    bounds 0.0 and 10.0, queue size 1 and transport hint raw for both
    subscriptions. *)
Theorem onInit_defaults :
  forall pnh : ParamStore,
    pnh !! "publish_tag_detections_image" = None ->
    pnh !! "transport_hint" = None ->
    pnh !! "depth_transport_hint" = None ->
    pnh !! "depth_min_range" = None ->
    pnh !! "depth_max_range" = None ->
    pnh !! "queue_size" = None ->
    let s := onInit pnh in
    draw_tag_detections_image_ s = false
    /\ tag_detections_image_publisher_ s = NoPublisher
    /\ depth_min_range_ s = 0%Q
    /\ depth_max_range_ s = 10%Q
    /\ sub_queue_size (camera_image_subscriber_ s) = 1%Z
    /\ sub_queue_size (depth_image_subscriber_ s) = 1%Z
    /\ sub_transport_hint (camera_image_subscriber_ s) = "raw"
    /\ sub_transport_hint (depth_image_subscriber_ s) = "raw".
Proof.
  intros pnh Hdraw Hhint Hdhint Hmin Hmax Hqueue s. subst s.
  unfold onInit, getAprilTagOption_bool, param_bool, param_string, param_double,
    param_int.
  cbn [draw_tag_detections_image_ tag_detections_image_publisher_ depth_min_range_
       depth_max_range_ camera_image_subscriber_ depth_image_subscriber_
       sub_queue_size sub_transport_hint].
  rewrite Hdraw, Hhint, Hdhint, Hmin, Hmax, Hqueue.
  repeat split.
Qed.

(** C9.  A depth frame whose conversion throws changes nothing: the
    exception is caught and logged, members and statics are as before, so
    the current depth frame is the one it was and every later colour frame
    is processed as if the bad frame had not come. *)
Theorem depthCallback_keeps_depth_on_error :
  forall (depth_rect : Image) (w : World) (msg : string),
    toCvCopy depth_rect "" = inl msg ->
    let o := depthCallback depth_rect w in
    result o = inr tt
    /\ final o = w
    /\ cv_depth_ (session (final o)) = cv_depth_ (session w)
    /\ events o = [EvToCvCopy depth_rect ""; EvError ("cv_bridge exception: " +:+ msg)]
    /\ forall env image_rect camera_info,
         imageCallback env image_rect camera_info (final o)
         = imageCallback env image_rect camera_info w.
Proof.
  intros depth_rect w msg Hconv o. subst o.
  rewrite (depthCallback_decode_error _ _ msg) by assumption.
  repeat split.
Qed.

(** C10.  The service callback answers true for every request, whatever the
    parameter server holds and whatever state the nodelet is in. *)
Theorem refreshParamsCallback_true :
  forall (pnh : ParamStore) (req : unit) (w : World),
    result (refreshParamsCallback pnh req w) = inr true.
Proof.
  intros pnh req w. rewrite refreshParamsCallback_run. reflexivity.
Qed.

End Properties.

(** * The nodelet at work

    The callbacks evaluated on the collaborators of [Sim]: instances of the
    theorems above, and the runs that show where the code departs from what
    is said of it. *)

Section Scenarios.
Import Sim.
#[local] Existing Instance externals.


Lemma imageCallback_skips_unobserved_witness :
  let w := initial_world no_params initial_statics in
  let o := imageCallback (nobody 100) color_ok tt w in
  getNumSubscribers (nobody 100) (tag_detections_publisher_ (session w)) = 0%nat
  /\ getNumSubscribers (nobody 100) (tag_detections_image_publisher_ (session w)) = 0%nat
  /\ get_publish_tf (tag_detector_ (session w)) = false
  /\ final o = w
  /\ events o = [EvLock; EvUnlock].
Proof.
  cbv zeta.
  assert (Hdet : getNumSubscribers (nobody 100)
                   (tag_detections_publisher_ (session
                       (initial_world no_params initial_statics)))
                 = 0%nat) by reflexivity.
  assert (Himg : getNumSubscribers (nobody 100)
                   (tag_detections_image_publisher_ (session
                       (initial_world no_params initial_statics)))
                 = 0%nat) by reflexivity.
  assert (Htf : get_publish_tf (tag_detector_ (session
      (initial_world no_params initial_statics)))
                = false) by reflexivity.
  pose proof (imageCallback_skips_unobserved (nobody 100) color_ok tt
                (initial_world no_params initial_statics) Hdet Himg Htf) as H.
  cbv zeta in H. destruct H as [_ [Hfinal [Hevents _]]].
  exact (conj Hdet (conj Himg (conj Htf (conj Hfinal Hevents)))).
Defined.

(** C3: the depth callback at work.  A depth frame of 2 m arrives while the
    frame of 7 m is current: the member [cv_depth_] is overwritten and the
    mutex is neither taken nor released.  A schedule that runs the callback
    in the middle of a detection cycle, between the conversion of the colour
    frame and the call of the decoder, respects the mutex. *)
Lemma depthCallback_writes_without_lock :
  let w := final (run [DepthFrame (Ext := externals) depth_7m]
      (initial_world no_params initial_statics)) in
  let o := depthCallback depth_2m w in
  let cycle := events (imageCallback (one_listener 100) color_ok tt w) in
  cv_depth_ (session w) = Some (mk_image "16UC1" [7000%Z])
  /\ cv_depth_ (session (final o)) = Some (mk_image "16UC1" [2000%Z])
  /\ events o = [EvToCvCopy depth_2m ""]
  /\ lock_events (events o) = []
  /\ ~ locked_throughout (events o)
  /\ exists before after,
       cycle = (before ++ after)%list
       /\ before = [EvLock; EvToCvCopy color_ok "mono8"]
       /\ interleave (events o) cycle (before ++ events o ++ after)%list
       /\ mutex_ok false (before ++ events o ++ after)%list = true.
Proof.
  cbv zeta. do 4 (split; [reflexivity |]). split.
  - intros [body [Hshape _]]. discriminate Hshape.
  - eexists [_; _], [_; _; _]. split; [reflexivity |]. split; [reflexivity |].
    split; [| reflexivity].
    cbn. repeat constructor.
Qed.

(** C4, as stated, fails.  Right after [onInit], with a subscriber on the
    detections topic and no depth frame ever received, a colour frame in an
    encoding cv_bridge does not know never reaches the no-depth exit: the
    throttle would let the warning through, and what is logged is the
    conversion error. *)
Lemma undecodable_color_frame_before_any_depth_frame :
  let w := initial_world no_params initial_statics in
  let env := one_listener 100 in
  let o := imageCallback env color_bad tt w in
  skip_detection env (session w) = false
  /\ cv_depth_ (session w) = None
  /\ throttle_check (now env) (warn_throttle_last_hit (statics w)) 2 = true
  /\ warn_stamps (events o) = []
  /\ events o
     = [EvLock; EvToCvCopy color_bad "yuv999";
        EvError "cv_bridge exception: Unrecognized image encoding [yuv999]";
        EvUnlock].
Proof.
  cbv zeta. repeat split.
Qed.

Lemma color_frame_before_any_depth_frame_witness :
  let history :=
    [ColorFrame (Ext := externals) (one_listener 3) color_ok tt;
     RefreshRequest params_narrow] in
  let env := one_listener 6 in
  let before := run history (initial_world no_params initial_statics) in
  let o := imageCallback env color_ok tt (final before) in
  forallb (fun c => negb (is_DepthFrame c)) history = true
  /\ skip_detection env (session (final before)) = false
  /\ toCvCopy color_ok (encoding color_ok) = inr (mk_image "mono8" [7%Z])
  /\ warn_stamps (events before) = [3%float]
  /\ events o
     = [EvLock; EvToCvCopy color_ok "mono8";
        EvWarn 6 "No depth image received. Can't find tags."; EvUnlock]
  /\ warn_throttle_last_hit (statics (final before)) = 3%float.
Proof.
  cbv zeta.
  set (history := [ColorFrame (Ext := externals) (one_listener 3) color_ok tt;
                   RefreshRequest params_narrow]).
  assert (Hnone : forallb (fun c => negb (is_DepthFrame c)) history = true)
    by reflexivity.
  assert (Hskip : skip_detection (one_listener 6)
                    (session (final (run history
                                       (initial_world no_params initial_statics))))
                  = false) by reflexivity.
  assert (Hconv : toCvCopy color_ok (encoding color_ok) = inr (mk_image "mono8" [7%Z]))
    by reflexivity.
  pose proof (color_frame_before_any_depth_frame no_params initial_statics history
                (one_listener 6) color_ok tt _ Hnone Hskip Hconv) as H.
  cbv zeta in H. destruct H as [_ [Hevents [_ [_ [_ [Hlast _]]]]]].
  exact (conj Hnone (conj Hskip (conj Hconv (conj eq_refl (conj Hevents Hlast))))).
Defined.

Lemma imageCallback_contains_decode_error_witness :
  let w := initial_world no_params initial_statics in
  let o := imageCallback (one_listener 1) color_bad tt w in
  toCvCopy color_bad (encoding color_bad) = inl "Unrecognized image encoding [yuv999]"
  /\ result o = inr tt
  /\ final o = w
  /\ published_detections (events o) = []
  /\ events o
     = [EvLock; EvToCvCopy color_bad "yuv999";
        EvError "cv_bridge exception: Unrecognized image encoding [yuv999]";
        EvUnlock].
Proof.
  cbv zeta.
  assert (Hconv : toCvCopy color_bad (encoding color_bad)
                  = inl "Unrecognized image encoding [yuv999]") by reflexivity.
  pose proof (imageCallback_contains_decode_error (one_listener 1) color_bad tt
                (initial_world no_params initial_statics) _ Hconv) as H.
  cbv zeta in H. destruct H as [Hres [Hfinal [_ [Hpub [_ Hevents]]]]].
  exact (conj Hconv (conj Hres (conj Hfinal (conj Hpub Hevents)))).
Defined.

(** C6, as stated, fails.  With publish_tag_detections_image set, one
    subscriber on the detections topic and none on the image topic, a
    completed cycle hands the annotated image to the image publisher. *)
Lemma annotated_image_without_image_subscriber :
  let w := final (run [DepthFrame (Ext := externals) depth_7m]
      (initial_world params_draw initial_statics)) in
  let env := one_listener 5 in
  let o := imageCallback env color_ok tt w in
  tag_detections_image_publisher_ (session w) = Advertised "tag_detections_image" 1
  /\ subscribers env "tag_detections_image" = 0%nat
  /\ published_images (events o) = [mk_image "mono8" [7%Z; 7%Z]].
Proof.
  cbv zeta. repeat split.
Qed.

Lemma annotated_image_follows_flag_witness :
  let w := final (run [DepthFrame (Ext := externals) depth_7m]
      (initial_world params_draw initial_statics)) in
  let env := one_listener 5 in
  let o := imageCallback env color_ok tt w in
  skip_detection env (session w) = false
  /\ toCvCopy color_ok (encoding color_ok) = inr (mk_image "mono8" [7%Z])
  /\ cv_depth_ (session w) = Some (mk_image "16UC1" [7000%Z])
  /\ draw_tag_detections_image_ (session w) = true
  /\ published_images (events o) = [mk_image "mono8" [7%Z; 7%Z]].
Proof.
  cbv zeta.
  set (w := final (run [DepthFrame (Ext := externals) depth_7m]
      (initial_world params_draw initial_statics))).
  assert (Hskip : skip_detection (one_listener 5) (session w) = false) by reflexivity.
  assert (Hconv : toCvCopy color_ok (encoding color_ok) = inr (mk_image "mono8" [7%Z]))
    by reflexivity.
  assert (Hdepth : cv_depth_ (session w) = Some (mk_image "16UC1" [7000%Z]))
    by reflexivity.
  pose proof (annotated_image_follows_flag (one_listener 5) color_ok tt w _ _
                Hskip Hconv Hdepth) as H.
  cbv zeta in H. destruct H as [_ Himages].
  exact (conj Hskip (conj Hconv (conj Hdepth (conj eq_refl Himages)))).
Defined.

(** C7, as stated, fails.  A depth frame in an encoding cv_bridge does not
    know arrives while the frame of 7 m is current: the current depth frame
    is not replaced. *)
Lemma bad_depth_frame_does_not_replace :
  let w := final (run [DepthFrame (Ext := externals) depth_7m]
      (initial_world no_params initial_statics)) in
  let o := depthCallback depth_bad w in
  toCvCopy depth_bad "" = inl "Unrecognized image encoding [bogus]"
  /\ cv_depth_ (session (final o)) = Some (mk_image "16UC1" [7000%Z])
  /\ cv_depth_ (session (final o)) = cv_depth_ (session w).
Proof.
  cbv zeta. repeat split.
Qed.

Lemma onInit_defaults_witness :
  no_params !! "publish_tag_detections_image" = None
  /\ no_params !! "transport_hint" = None
  /\ no_params !! "depth_transport_hint" = None
  /\ no_params !! "depth_min_range" = None
  /\ no_params !! "depth_max_range" = None
  /\ no_params !! "queue_size" = None
  /\ depth_min_range_ (onInit no_params) = 0%Q
  /\ depth_max_range_ (onInit no_params) = 10%Q.
Proof.
  assert (Hnone : forall name : string, no_params !! name = None)
    by (intros name; apply lookup_empty).
  pose proof (onInit_defaults no_params (Hnone _) (Hnone _) (Hnone _) (Hnone _)
                (Hnone _) (Hnone _)) as H.
  cbv zeta in H. destruct H as [_ [_ [Hmin [Hmax _]]]].
  exact (conj (Hnone _) (conj (Hnone _) (conj (Hnone _) (conj (Hnone _)
           (conj (Hnone _) (conj (Hnone _) (conj Hmin Hmax))))))).
Defined.

Lemma depthCallback_keeps_depth_on_error_witness :
  let w := final (run [DepthFrame (Ext := externals) depth_7m]
      (initial_world no_params initial_statics)) in
  let o := depthCallback depth_bad w in
  toCvCopy depth_bad "" = inl "Unrecognized image encoding [bogus]"
  /\ final o = w
  /\ cv_depth_ (session (final o)) = Some (mk_image "16UC1" [7000%Z]).
Proof.
  cbv zeta.
  set (w := final (run [DepthFrame (Ext := externals) depth_7m]
      (initial_world no_params initial_statics))).
  assert (Hconv : toCvCopy depth_bad "" = inl "Unrecognized image encoding [bogus]")
    by reflexivity.
  pose proof (depthCallback_keeps_depth_on_error depth_bad w _ Hconv) as H.
  cbv zeta in H. destruct H as [_ [Hfinal [Hdepth _]]].
  refine (conj Hconv (conj Hfinal _)).
  rewrite Hdepth. reflexivity.
Defined.

End Scenarios.

(** * Histories of calls

    What holds of the nodelet over any sequence of calls, beyond the single
    callbacks. *)

Section Histories.
Context `{Ext : Externals}.

(** ** Reading the events of a history *)

Lemma run_app (before after : list Call) (w : World) :
  run (before ++ after) w
  = match run after (final (run before w)) with
    | mkOutcome r w' evs => mkOutcome r w' (events (run before w) ++ evs)
    end.
Proof.
  revert w. induction before as [| c rest IH]; intros w.
  - cbn. destruct (run after w); reflexivity.
  - cbn [app]. rewrite !run_cons. cbn [final events]. rewrite IH.
    destruct (run after _) as [r w' evs]. cbn. rewrite app_assoc. reflexivity.
Qed.

Lemma published_detections_app (xs ys : list Event) :
  published_detections (xs ++ ys)
  = (published_detections xs ++ published_detections ys)%list.
Proof.
  induction xs as [| e xs IH]; [reflexivity |].
  destruct e; cbn; rewrite ?IH; reflexivity.
Qed.

Lemma published_images_app (xs ys : list Event) :
  published_images (xs ++ ys) = (published_images xs ++ published_images ys)%list.
Proof.
  induction xs as [| e xs IH]; [reflexivity |].
  destruct e; cbn; rewrite ?IH; reflexivity.
Qed.

Lemma decoder_calls_app (xs ys : list Event) :
  decoder_calls (xs ++ ys) = (decoder_calls xs ++ decoder_calls ys)%list.
Proof.
  induction xs as [| e xs IH]; [reflexivity |].
  destruct e; cbn; rewrite ?IH; reflexivity.
Qed.

Lemma info_lines_app (xs ys : list Event) :
  info_lines (xs ++ ys) = (info_lines xs ++ info_lines ys)%list.
Proof.
  induction xs as [| e xs IH]; [reflexivity |].
  destruct e; cbn; rewrite ?IH; reflexivity.
Qed.

(** The four exits of [imageCallback], as a case analysis. *)
Lemma imageCallback_exits env image_rect camera_info w (P : Outcome unit -> Prop) :
  (skip_detection env (session w) = true ->
   P (mkOutcome (inr tt) w [EvLock; EvUnlock])) ->
  (forall msg,
     skip_detection env (session w) = false ->
     toCvCopy image_rect (encoding image_rect) = inl msg ->
     P (mkOutcome (inr tt) w
          [EvLock; EvToCvCopy image_rect (encoding image_rect);
           EvError ("cv_bridge exception: " +:+ msg); EvUnlock])) ->
  (forall cv,
     skip_detection env (session w) = false ->
     toCvCopy image_rect (encoding image_rect) = inr cv ->
     cv_depth_ (session w) = None ->
     P (imageCallback env image_rect camera_info w)) ->
  (forall cv depth,
     skip_detection env (session w) = false ->
     toCvCopy image_rect (encoding image_rect) = inr cv ->
     cv_depth_ (session w) = Some depth ->
     P (imageCallback env image_rect camera_info w)) ->
  P (imageCallback env image_rect camera_info w).
Proof.
  intros Hskipped Herror Hnodepth Hdone.
  destruct (skip_detection env (session w)) eqn:Hskip.
  { rewrite imageCallback_skip by assumption. auto. }
  destruct (toCvCopy image_rect (encoding image_rect)) as [msg | cv] eqn:Hconv.
  { rewrite (imageCallback_decode_error _ _ _ _ msg) by assumption. auto. }
  destruct (cv_depth_ (session w)) as [depth |] eqn:Hdepth; eauto.
Qed.

(** ** One call at a time *)

Lemma imageCallback_summary env image_rect camera_info w :
  let o := imageCallback env image_rect camera_info w in
  info_lines (events o) = []
  /\ length (published_detections (events o)) = length (decoder_calls (events o))
  /\ length (published_images (events o)) <= length (published_detections (events o))
  /\ (draw_tag_detections_image_ (session w) = false -> published_images (events o) = [])
  /\ (has_depth (cv_depth_ (session w)) = true -> warn_stamps (events o) = []).
Proof.
  cbv zeta.
  destruct (skip_detection env (session w)) eqn:Hskip.
  { rewrite imageCallback_skip by assumption. cbn. auto. }
  destruct (toCvCopy image_rect (encoding image_rect)) as [msg | cv] eqn:Hconv.
  { rewrite (imageCallback_decode_error _ _ _ _ msg) by assumption. cbn. auto. }
  destruct (cv_depth_ (session w)) as [depth |] eqn:Hdepth.
  - rewrite (imageCallback_completed _ _ _ _ cv depth) by assumption.
    destruct (draw_tag_detections_image_ (session w)); cbn;
      repeat split; auto; discriminate.
  - rewrite (imageCallback_no_depth _ _ _ _ cv) by assumption.
    destruct (throttle_check _ _ _); cbn; repeat split; auto; discriminate.
Qed.

Lemma depthCallback_summary depth_rect w :
  let o := depthCallback depth_rect w in
  let converts := match toCvCopy depth_rect "" with inr _ => true | inl _ => false end in
  cv_depth_ (session (final o))
  = match toCvCopy depth_rect "" with
    | inr cv => Some cv
    | inl _ => cv_depth_ (session w)
    end
  /\ info_once_hit (statics (final o)) = info_once_hit (statics w) || converts
  /\ info_lines (events o)
     = (if info_once_hit (statics w) then []
        else if converts then ["Depth image for tags received."] else [])
  /\ published_detections (events o) = []
  /\ published_images (events o) = []
  /\ decoder_calls (events o) = [].
Proof.
  cbv zeta.
  destruct (toCvCopy depth_rect "") as [msg | cv] eqn:Hconv.
  - rewrite (depthCallback_decode_error _ _ msg) by assumption. cbn.
    rewrite orb_false_r. destruct (info_once_hit (statics w)); repeat split.
  - rewrite (depthCallback_converted _ _ cv) by assumption.
    destruct (info_once_hit (statics w)) eqn:Hhit; cbn; rewrite ?Hhit; repeat split.
Qed.

(** ** The depth frame over a history *)

Lemma run_depth_after history :
  forall w,
    cv_depth_ (session (final (run history w)))
    = depth_after history (cv_depth_ (session w)).
Proof.
  induction history as [| c rest IH]; intros w; [reflexivity |].
  rewrite run_cons. cbn [final]. rewrite IH.
  destruct c as [env image_rect camera_info | depth_rect | pnh]; cbn [dispatch depth_after].
  - destruct (imageCallback_members env image_rect camera_info w) as [_ [Hdepth _]].
    rewrite Hdepth. reflexivity.
  - destruct (depthCallback_summary depth_rect w) as [Hdepth _].
    rewrite Hdepth. destruct (toCvCopy depth_rect ""); reflexivity.
  - reflexivity.
Qed.

Lemma depth_after_kept history :
  forall d, has_depth d = true -> has_depth (depth_after history d) = true.
Proof.
  induction history as [| c rest IH]; intros d Hd; [exact Hd |].
  destruct c as [env image_rect camera_info | depth_rect | pnh]; cbn [depth_after]; auto.
  destruct (toCvCopy depth_rect ""); auto.
Qed.

(** X1.  A detection cycle is paired with the last depth frame that
    converted, however many calls lie in between: when the depth frames of
    a history leave [depth] current, a colour frame that then passes the
    gate and converts hands exactly [depth] to the decoder, and leaves it
    current. *)
Theorem cycle_uses_last_converted_depth_frame :
  forall (history : list Call) (w : World) (env : Env) (image_rect : Image)
         (camera_info : CameraInfo) (cv depth : CvImage),
    let before := final (run history w) in
    let o := imageCallback env image_rect camera_info before in
    depth_after history (cv_depth_ (session w)) = Some depth ->
    skip_detection env (session before) = false ->
    toCvCopy image_rect (encoding image_rect) = inr cv ->
    cv_depth_ (session before) = Some depth
    /\ decoder_depths (events o) = [depth]
    /\ cv_depth_ (session (final o)) = Some depth.
Proof.
  intros history w env image_rect camera_info cv depth before o Hafter Hskip Hconv.
  assert (Hdepth : cv_depth_ (session before) = Some depth).
  { subst before. rewrite run_depth_after. exact Hafter. }
  split; [exact Hdepth |]. split.
  - subst o. rewrite (imageCallback_completed _ _ _ _ cv depth) by assumption.
    destruct (draw_tag_detections_image_ (session before)); reflexivity.
  - subst o.
    destruct (imageCallback_members env image_rect camera_info before) as [_ [Hkept _]].
    rewrite Hkept. exact Hdepth.
Qed.

(** X2.  Once a depth frame is current there always is one: no later call,
    be it a colour frame, a depth frame that fails to convert or a refresh,
    clears it, and the no-depth warning is never printed again. *)
Theorem depth_frame_is_never_lost :
  forall (history : list Call) (w : World),
    has_depth (cv_depth_ (session w)) = true ->
    let o := run history w in
    has_depth (cv_depth_ (session (final o))) = true
    /\ warn_stamps (events o) = [].
Proof.
  induction history as [| c rest IH]; intros w Hdepth; [split; auto |].
  cbv zeta. rewrite run_cons. cbn [final events]. rewrite warn_stamps_app.
  assert (Hstep : has_depth (cv_depth_ (session (final (dispatch c w)))) = true
                  /\ warn_stamps (events (dispatch c w)) = []).
  { destruct c as [env image_rect camera_info | depth_rect | pnh].
    - cbn [dispatch].
      destruct (imageCallback_members env image_rect camera_info w) as [_ [Hkept _]].
      destruct (imageCallback_summary env image_rect camera_info w)
        as [_ [_ [_ [_ Hquiet]]]].
      rewrite Hkept. auto.
    - cbn [dispatch].
      destruct (depthCallback_summary depth_rect w) as [Hnew _].
      destruct (depthCallback_members depth_rect w) as [_ [_ [_ [_ Hquiet]]]].
      rewrite Hnew. split; [| exact Hquiet].
      destruct (toCvCopy depth_rect ""); auto.
    - rewrite dispatch_refresh. auto. }
  destruct Hstep as [Hdepth' Hquiet].
  destruct (IH _ Hdepth') as [Hfinal Hquiet'].
  rewrite Hquiet, Hquiet'. auto.
Qed.

(** ** The line of [ROS_INFO_ONCE] *)

(** X3.  The line "Depth image for tags received." is printed at most once
    in a process.  Over any history, from any state: if the process has
    printed it before (this nodelet or an earlier one of the class), it is
    not printed; otherwise it is printed exactly once if some depth frame
    of the history converts, by the first that does, and not at all if
    none does.  The flag is set afterwards exactly in the first two
    cases. *)
Theorem depth_received_is_logged_once :
  forall (history : list Call) (w : World),
    let o := run history w in
    let received := has_depth (depth_after history None) in
    info_lines (events o)
    = (if info_once_hit (statics w) then []
       else if received then ["Depth image for tags received."] else [])
    /\ info_once_hit (statics (final o)) = info_once_hit (statics w) || received.
Proof.
  induction history as [| c rest IH]; intros w.
  - cbn. rewrite orb_false_r. destruct (info_once_hit (statics w)); auto.
  - cbv zeta. rewrite run_cons. cbn [final events]. rewrite info_lines_app.
    destruct (IH (final (dispatch c w))) as [Hlines Hhit]. rewrite Hhit, Hlines.
    destruct c as [env image_rect camera_info | depth_rect | pnh].
    + cbn [dispatch depth_after].
      destruct (imageCallback_members env image_rect camera_info w) as [_ [_ Hsame]].
      destruct (imageCallback_summary env image_rect camera_info w) as [Hquiet _].
      rewrite Hsame, Hquiet. auto.
    + cbn [dispatch depth_after].
      destruct (depthCallback_summary depth_rect w) as [_ [Hflag [Hline _]]].
      rewrite Hflag, Hline.
      destruct (toCvCopy depth_rect "") as [msg | cv].
      * rewrite orb_false_r.
        destruct (info_once_hit (statics w)); auto.
      * rewrite (depth_after_kept rest (Some cv)) by reflexivity.
        rewrite !orb_true_r.
        destruct (info_once_hit (statics w)); auto.
    + rewrite dispatch_refresh. cbn [final events statics info_lines depth_after app].
      auto.
Qed.

(** ** Publications over a history *)

Lemma dispatch_publications c w :
  let evs := events (dispatch c w) in
  length (published_detections evs) = length (decoder_calls evs)
  /\ length (published_images evs) <= length (published_detections evs)
  /\ (draw_tag_detections_image_ (session w) = false -> published_images evs = []).
Proof.
  destruct c as [env image_rect camera_info | depth_rect | pnh].
  - cbn [dispatch].
    destruct (imageCallback_summary env image_rect camera_info w)
      as [_ [Hsame [Hle [Hnone _]]]].
    auto.
  - cbn [dispatch].
    destruct (depthCallback_summary depth_rect w) as [_ [_ [_ [Hdet [Himg Hdec]]]]].
    cbv zeta. rewrite Hdet, Himg, Hdec. auto.
  - rewrite dispatch_refresh. cbn. auto.
Qed.

Lemma fixed_members_flag (s s' : Session) :
  fixed_members s' = fixed_members s ->
  draw_tag_detections_image_ s' = draw_tag_detections_image_ s
  /\ tag_detections_publisher_ s' = tag_detections_publisher_ s
  /\ tag_detections_image_publisher_ s' = tag_detections_image_publisher_ s.
Proof.
  unfold fixed_members. intros Heq. inversion Heq. auto.
Qed.

(** X4.  Over any history, every result of the decoder is published and
    nothing else is: there are as many detection messages as calls of
    [detectTags], and never more annotated images than detection
    messages. *)
Theorem every_decoder_result_is_published :
  forall (history : list Call) (w : World),
    let evs := events (run history w) in
    length (published_detections evs) = length (decoder_calls evs)
    /\ length (published_images evs) <= length (published_detections evs).
Proof.
  induction history as [| c rest IH]; intros w; [cbn; auto |].
  cbv zeta. rewrite run_cons. cbn [events].
  rewrite published_detections_app, published_images_app, decoder_calls_app.
  rewrite !length_app.
  destruct (dispatch_publications c w) as [Hsame [Hle _]].
  destruct (IH (final (dispatch c w))) as [Hsame' Hle'].
  split; lia.
Qed.

(** X5.  When [draw_tag_detections_image_] is unset, no history of calls
    ever publishes an annotated image. *)
Theorem no_annotated_image_without_flag :
  forall (history : list Call) (w : World),
    draw_tag_detections_image_ (session w) = false ->
    published_images (events (run history w)) = [].
Proof.
  induction history as [| c rest IH]; intros w Hflag; [reflexivity |].
  rewrite run_cons. cbn [events]. rewrite published_images_app.
  destruct (dispatch_publications c w) as [_ [_ Hnone]].
  rewrite Hnone by assumption.
  rewrite IH; [reflexivity |].
  destruct (fixed_members_flag _ _ (dispatch_fixed_members c w)) as [Hsame _].
  rewrite Hsame. exact Hflag.
Qed.

(** X6.  When the nodelet was initialised without the annotated image, the
    image publisher is never advertised, so subscribers of the image topic
    cannot open the gate: after any history, a colour frame is skipped
    exactly when the detections topic has no subscriber and the detector
    does not publish tf. *)
Theorem image_subscribers_cannot_open_gate :
  forall (pnh : ParamStore) (st : Statics) (history : list Call) (env : Env),
    let s := session (final (run history (initial_world pnh st))) in
    draw_tag_detections_image_ s = false ->
    skip_detection env s
    = (subscribers env "tag_detections" =? 0)%nat
      && negb (get_publish_tf (tag_detector_ s)).
Proof.
  intros pnh st history env s Hflag.
  destruct (fixed_members_flag (onInit pnh) s) as [Hdraw [Hpub Himg]].
  { subst s. apply run_fixed_members. }
  unfold skip_detection. rewrite Hpub, Himg.
  rewrite Hflag in Hdraw. cbn in Hdraw. cbn. rewrite <- Hdraw. cbn.
  rewrite andb_true_r. reflexivity.
Qed.

(** ** The mutex over a history *)

Lemma mutex_ok_quiet (body rest : list Event) (held : bool) :
  lock_events body = [] ->
  mutex_ok held (body ++ rest) = mutex_ok held rest.
Proof.
  induction body as [| e body IH]; intros Hquiet; [reflexivity |].
  destruct e; cbn in Hquiet; try discriminate; cbn; auto.
Qed.

Lemma mutex_ok_locked (t rest : list Event) :
  locked_throughout t ->
  mutex_ok false (t ++ rest) = mutex_ok false rest.
Proof.
  intros [body [-> Hquiet]]. cbn.
  rewrite <- app_assoc. rewrite mutex_ok_quiet by assumption. reflexivity.
Qed.

Lemma dispatch_locked c w :
  is_DepthFrame c = false ->
  locked_throughout (events (dispatch c w)).
Proof.
  destruct c as [env image_rect camera_info | depth_rect | pnh]; intros Hkind.
  - apply imageCallback_locked.
  - discriminate.
  - rewrite dispatch_refresh. exists []. auto.
Qed.

(** X7.  Every call gives the mutex back on every path out of it, the early
    returns included: the events of any history respect the mutex and leave
    it free, so whatever schedule follows is admissible exactly when it is
    on its own. *)
Theorem mutex_is_free_after_every_history :
  forall (history : list Call) (w : World) (rest : list Event),
    mutex_ok false (events (run history w) ++ rest) = mutex_ok false rest.
Proof.
  induction history as [| c rest_calls IH]; intros w rest; [reflexivity |].
  rewrite run_cons. cbn [events]. rewrite <- app_assoc.
  destruct (is_DepthFrame c) eqn:Hkind.
  - destruct c as [| depth_rect |]; try discriminate. cbn [dispatch].
    rewrite mutex_ok_quiet by apply depthCallback_lock_events.
    apply IH.
  - rewrite mutex_ok_locked by (apply dispatch_locked; assumption).
    apply IH.
Qed.

(** X8.  Colour frames and refresh requests exclude one another: a schedule
    of the events of two such calls, running in two threads, that respects
    the mutex is one call followed by the other. *)
Theorem locked_calls_serialize :
  forall (c1 c2 : Call) (w1 w2 : World) (zs : list Event),
    is_DepthFrame c1 = false ->
    is_DepthFrame c2 = false ->
    interleave (events (dispatch c1 w1)) (events (dispatch c2 w2)) zs ->
    mutex_ok false zs = true ->
    zs = (events (dispatch c1 w1) ++ events (dispatch c2 w2))%list
    \/ zs = (events (dispatch c2 w2) ++ events (dispatch c1 w1))%list.
Proof.
  intros c1 c2 w1 w2 zs Hkind1 Hkind2.
  apply locked_bodies_serialize; apply dispatch_locked; assumption.
Qed.

(** ** The throttle over a history *)

(** X9.  Over any history, from any state, every no-depth warning that is
    printed passes rosconsole's throttle check against the one printed
    before it, and the first against the [last_hit] the history started
    with: in double arithmetic, the earlier time plus 2.0 is not after the
    later time, or the clock ran backwards.  No warning is printed in
    between two such. *)
Theorem no_depth_warnings_are_throttled :
  forall (history : list Call) (w : World),
    throttled 2 (warn_throttle_last_hit (statics w))
              (warn_stamps (events (run history w))).
Proof.
  induction history as [| c rest IH]; intros w; [exact I |].
  rewrite run_cons. cbn [events]. rewrite warn_stamps_app.
  destruct c as [env image_rect camera_info | depth_rect | pnh].
  - cbn [dispatch].
    destruct (imageCallback_warns env image_rect camera_info w)
      as [[Hnone Hsame] | [Hone [Hmoved Hcheck]]].
    + rewrite Hnone. cbn [app]. rewrite <- Hsame. apply IH.
    + rewrite Hone. cbn [app throttled]. split; [exact Hcheck |].
      rewrite <- Hmoved. apply IH.
  - cbn [dispatch].
    destruct (depthCallback_members depth_rect w) as [_ [_ [_ [Hsame Hnone]]]].
    rewrite Hnone. cbn [app]. rewrite <- Hsame. apply IH.
  - rewrite dispatch_refresh. cbn [events final warn_stamps app].
    apply (IH (mkWorld (set_tag_detector_ (new_TagDetector pnh) (session w))
                       (statics w))).
Qed.

(** ** Whole histories *)

(** X10.  No frame and no request ends the run: every call of a history
    returns normally, so the calls that follow are served, from the state
    the earlier ones left. *)
Theorem no_call_ends_the_run :
  forall (before after : list Call) (w : World),
    let o := run (before ++ after) w in
    result o = inr tt
    /\ final o = final (run after (final (run before w)))
    /\ events o
       = (events (run before w) ++ events (run after (final (run before w))))%list.
Proof.
  intros before after w o. subst o. rewrite run_app.
  pose proof (run_returns after (final (run before w))) as Hret.
  destruct (run after (final (run before w))) as [r w' evs].
  cbn in *. auto.
Qed.

(** X11.  What [onInit] sets up stays as it is: after any history the
    annotated-image flag, both subscriptions, both publishers and the
    service are the ones [onInit] made from the parameter server it saw.
    Both subscriptions have the queue size that the [int] read for
    queue_size becomes as a [uint32_t]. *)
Theorem onInit_members_never_change :
  forall (pnh : ParamStore) (st : Statics) (history : list Call),
    let s := session (final (run history (initial_world pnh st))) in
    draw_tag_detections_image_ s = draw_tag_detections_image_ (onInit pnh)
    /\ camera_image_subscriber_ s
       = mkSubscriber "color/image_rect"
           (to_uint32 (param_int int_of_large_double pnh "queue_size" 1))
           ImageCallback (param_string pnh "transport_hint" "raw")
    /\ depth_image_subscriber_ s
       = mkSubscriber "depth/image_rect"
           (to_uint32 (param_int int_of_large_double pnh "queue_size" 1))
           DepthCallback (param_string pnh "depth_transport_hint" "raw")
    /\ (0 <= sub_queue_size (camera_image_subscriber_ s) < 2 ^ 32)%Z
    /\ tag_detections_publisher_ s = Advertised "tag_detections" 1
    /\ tag_detections_image_publisher_ s
       = (if draw_tag_detections_image_ s then Advertised "tag_detections_image" 1
          else NoPublisher)
    /\ refresh_params_service_ s = "refresh_tag_params".
Proof.
  intros pnh st history s.
  assert (Hfixed : fixed_members s = fixed_members (onInit pnh))
    by (subst s; apply run_fixed_members).
  unfold fixed_members in Hfixed.
  inversion Hfixed as [[Hdraw Hmin Hmax Hcam Hdep Hpub Himg Hsrv]].
  rewrite Hdraw, Hcam.
  do 3 (split; [first [reflexivity | assumption] |]).
  split; [cbn; unfold to_uint32; apply Z.mod_pos_bound; reflexivity |].
  repeat split; assumption.
Qed.

(** X12.  A refresh does take effect on the gate: when the detector built
    from the parameter server publishes tf, the colour frame that follows
    the refresh is converted whether or not anybody subscribes. *)
Theorem refresh_can_open_gate :
  forall (pnh : ParamStore) (w : World) (env : Env) (image_rect : Image)
         (camera_info : CameraInfo),
    get_publish_tf (new_TagDetector pnh) = true ->
    let w' := final (refreshTagParameters pnh w) in
    skip_detection env (session w') = false
    /\ conversions (events (imageCallback env image_rect camera_info w')) = [image_rect].
Proof.
  intros pnh w env image_rect camera_info Htf w'.
  assert (Hskip : skip_detection env (session w') = false).
  { subst w'. rewrite refreshTagParameters_run. cbn [final session].
    unfold skip_detection. cbn [tag_detector_ set_tag_detector_].
    rewrite Htf. cbn. rewrite andb_false_r. reflexivity. }
  split; [exact Hskip |].
  destruct (toCvCopy image_rect (encoding image_rect)) as [msg | cv] eqn:Hconv.
  { rewrite (imageCallback_decode_error _ _ _ _ msg) by assumption. reflexivity. }
  destruct (cv_depth_ (session w')) as [depth |] eqn:Hdepth.
  - rewrite (imageCallback_completed _ _ _ _ cv depth) by assumption.
    destruct (draw_tag_detections_image_ (session w')); reflexivity.
  - rewrite (imageCallback_no_depth _ _ _ _ cv) by assumption.
    destruct (throttle_check _ _ _); reflexivity.
Qed.

(** ** What the decoder and the publishers are handed *)

Lemma detection_publishers_app (xs ys : list Event) :
  detection_publishers (xs ++ ys)
  = (detection_publishers xs ++ detection_publishers ys)%list.
Proof.
  induction xs as [| e xs IH]; [reflexivity |].
  destruct e; cbn; rewrite ?IH; reflexivity.
Qed.

Lemma image_publishers_app (xs ys : list Event) :
  image_publishers (xs ++ ys) = (image_publishers xs ++ image_publishers ys)%list.
Proof.
  induction xs as [| e xs IH]; [reflexivity |].
  destruct e; cbn; rewrite ?IH; reflexivity.
Qed.

Lemma dispatch_handed c w :
  let evs := events (dispatch c w) in
  Forall (fun call => snd (fst call) = depth_min_range_ (session w)
                      /\ snd call = depth_max_range_ (session w))
         (decoder_calls evs)
  /\ Forall (fun p => p = tag_detections_publisher_ (session w))
            (detection_publishers evs)
  /\ Forall (fun p => draw_tag_detections_image_ (session w) = true
                      /\ p = tag_detections_image_publisher_ (session w))
            (image_publishers evs).
Proof.
  destruct c as [env image_rect camera_info | depth_rect | pnh].
  - cbn [dispatch]. cbv zeta.
    destruct (skip_detection env (session w)) eqn:Hskip.
    { rewrite imageCallback_skip by assumption. cbn. auto. }
    destruct (toCvCopy image_rect (encoding image_rect)) as [msg | cv] eqn:Hconv.
    { rewrite (imageCallback_decode_error _ _ _ _ msg) by assumption. cbn. auto. }
    destruct (cv_depth_ (session w)) as [depth |] eqn:Hdepth.
    + rewrite (imageCallback_completed _ _ _ _ cv depth) by assumption.
      destruct (draw_tag_detections_image_ (session w)); cbn;
        repeat split; repeat constructor.
    + rewrite (imageCallback_no_depth _ _ _ _ cv) by assumption.
      destruct (throttle_check _ _ _); cbn; auto.
  - cbn [dispatch]. cbv zeta.
    destruct (toCvCopy depth_rect "") as [msg | cv] eqn:Hconv.
    + rewrite (depthCallback_decode_error _ _ msg) by assumption. cbn. auto.
    + rewrite (depthCallback_converted _ _ cv) by assumption.
      destruct (info_once_hit (statics w)); cbn; auto.
  - rewrite dispatch_refresh. cbn. auto.
Qed.

Lemma run_handed history :
  forall w,
    let evs := events (run history w) in
    Forall (fun call => snd (fst call) = depth_min_range_ (session w)
                        /\ snd call = depth_max_range_ (session w))
           (decoder_calls evs)
    /\ Forall (fun p => p = tag_detections_publisher_ (session w))
              (detection_publishers evs)
    /\ Forall (fun p => draw_tag_detections_image_ (session w) = true
                        /\ p = tag_detections_image_publisher_ (session w))
              (image_publishers evs).
Proof.
  induction history as [| c rest IH]; intros w; [cbn; auto |].
  cbv zeta. rewrite run_cons. cbn [events].
  rewrite decoder_calls_app, detection_publishers_app, image_publishers_app.
  destruct (dispatch_handed c w) as [Hcalls [Hdet Himg']].
  destruct (IH (final (dispatch c w))) as [Hcalls' [Hdet' Himg'']].
  pose proof (dispatch_fixed_members c w) as Hfixed.
  unfold fixed_members in Hfixed.
  inversion Hfixed as [[Hdraw Hmin Hmax Hcam Hdep Hpub Himg Hsrv]].
  rewrite Hdraw, Hmin, Hmax, Hpub, Himg in *.
  repeat split; apply Forall_app; auto.
Qed.

(** X13.  Over any history that starts at [onInit], every call of the
    decoder is handed the range bounds [onInit] read from the parameter
    server, whatever has been refreshed in between. *)
Theorem every_decoder_call_uses_init_bounds :
  forall (pnh : ParamStore) (st : Statics) (history : list Call),
    Forall (fun call => snd (fst call) = param_double pnh "depth_min_range" 0
                        /\ snd call = param_double pnh "depth_max_range" 10)
           (decoder_calls (events (run history (initial_world pnh st)))).
Proof.
  intros pnh st history.
  exact (proj1 (run_handed history (initial_world pnh st))).
Qed.

(** X14.  Over any history that starts at [onInit], every detection message
    is published on the publisher advertised for tag_detections and every
    annotated image on the one advertised for tag_detections_image: neither
    kind ever goes to the other topic, and the image publisher that
    [onInit] leaves unadvertised when the flag is unset is never used. *)
Theorem publish_only_on_advertised_topics :
  forall (pnh : ParamStore) (st : Statics) (history : list Call),
    let evs := events (run history (initial_world pnh st)) in
    Forall (fun p => p = Advertised "tag_detections" 1) (detection_publishers evs)
    /\ Forall (fun p => p = Advertised "tag_detections_image" 1) (image_publishers evs).
Proof.
  intros pnh st history evs.
  destruct (run_handed history (initial_world pnh st)) as [_ [Hdet Himg]].
  split; [exact Hdet |].
  eapply Forall_impl; [exact Himg |].
  cbn. intros p [Hflag ->]. rewrite Hflag. reflexivity.
Qed.

End Histories.

(** * Histories at work *)

Section HistoryScenarios.
Import Sim.
#[local] Existing Instance externals.

#[local] Abbreviation depth_frame := (DepthFrame (Ext := externals)).
#[local] Abbreviation color_frame := (ColorFrame (Ext := externals)).

Lemma cycle_uses_last_converted_depth_frame_witness :
  let history :=
    [depth_frame depth_7m; depth_frame depth_2m; depth_frame depth_bad;
     color_frame (nobody 1) color_ok tt; RefreshRequest params_narrow] in
  let w := initial_world no_params initial_statics in
  let before := final (run history w) in
  let o := imageCallback (one_listener 9) color_ok tt before in
  depth_after history (cv_depth_ (session w)) = Some (mk_image "16UC1" [2000%Z])
  /\ skip_detection (one_listener 9) (session before) = false
  /\ toCvCopy color_ok (encoding color_ok) = inr (mk_image "mono8" [7%Z])
  /\ decoder_depths (events o) = [mk_image "16UC1" [2000%Z]].
Proof.
  cbv zeta.
  set (history := [depth_frame depth_7m; depth_frame depth_2m;
                   depth_frame depth_bad; color_frame (nobody 1) color_ok tt;
                   RefreshRequest params_narrow]).
  assert (Hafter : depth_after history (cv_depth_ (session
      (initial_world no_params initial_statics)))
                   = Some (mk_image "16UC1" [2000%Z])) by reflexivity.
  assert (Hskip : skip_detection (one_listener 9)
                    (session (final (run history
                        (initial_world no_params initial_statics)))) = false)
    by reflexivity.
  assert (Hconv : toCvCopy color_ok (encoding color_ok) = inr (mk_image "mono8" [7%Z]))
    by reflexivity.
  pose proof (cycle_uses_last_converted_depth_frame history
      (initial_world no_params initial_statics)
                (one_listener 9) color_ok tt _ _ Hafter Hskip Hconv) as H.
  cbv zeta in H. destruct H as [_ [Hused _]].
  exact (conj Hafter (conj Hskip (conj Hconv Hused))).
Defined.

Lemma depth_frame_is_never_lost_witness :
  let w := final (run [depth_frame depth_7m] (initial_world no_params initial_statics)) in
  let history :=
    [depth_frame depth_bad; color_frame (one_listener 5) color_ok tt;
     RefreshRequest params_narrow; color_frame (one_listener 9) color_bad tt] in
  has_depth (cv_depth_ (session w)) = true
  /\ has_depth (cv_depth_ (session (final (run history w)))) = true
  /\ warn_stamps (events (run history w)) = [].
Proof.
  cbv zeta.
  set (w := final (run [depth_frame depth_7m] (initial_world no_params initial_statics))).
  assert (Hdepth : has_depth (cv_depth_ (session w)) = true) by reflexivity.
  exact (conj Hdepth (depth_frame_is_never_lost _ w Hdepth)).
Defined.

Lemma no_annotated_image_without_flag_witness :
  let w := initial_world params_wide initial_statics in
  let history :=
    [depth_frame depth_7m; color_frame (one_listener 5) color_ok tt] in
  draw_tag_detections_image_ (session w) = false
  /\ published_images (events (run history w)) = [].
Proof.
  cbv zeta.
  assert (Hflag : draw_tag_detections_image_ (session
      (initial_world params_wide initial_statics))
                  = false) by reflexivity.
  exact (conj Hflag (no_annotated_image_without_flag _ _ Hflag)).
Defined.

(** Only the image topic has a subscriber. *)
Lemma image_subscribers_cannot_open_gate_witness :
  let env :=
    mkEnv (fun topic => if bool_decide (topic = "tag_detections_image") then 3%nat
                        else 0%nat) 1 in
  let s := session (final (run [depth_frame depth_7m]
                               (initial_world no_params initial_statics))) in
  draw_tag_detections_image_ s = false
  /\ skip_detection env s = true.
Proof.
  cbv zeta.
  set (history := [depth_frame depth_7m]).
  assert (Hflag : draw_tag_detections_image_
                    (session (final (run history
                        (initial_world no_params initial_statics)))) = false)
    by reflexivity.
  refine (conj Hflag _).
  rewrite (image_subscribers_cannot_open_gate no_params initial_statics history _
             Hflag).
  reflexivity.
Defined.

Lemma locked_calls_serialize_witness :
  let c1 := color_frame (one_listener 100) color_ok tt in
  let c2 := RefreshRequest (Ext := externals) params_narrow in
  let w := initial_world no_params initial_statics in
  let zs := (events (dispatch c1 w) ++ events (dispatch c2 w))%list in
  is_DepthFrame c1 = false
  /\ is_DepthFrame c2 = false
  /\ interleave (events (dispatch c1 w)) (events (dispatch c2 w)) zs
  /\ mutex_ok false zs = true
  /\ (zs = (events (dispatch c1 w) ++ events (dispatch c2 w))%list
      \/ zs = (events (dispatch c2 w) ++ events (dispatch c1 w))%list).
Proof.
  cbv zeta.
  set (c1 := color_frame (one_listener 100) color_ok tt).
  set (c2 := RefreshRequest (Ext := externals) params_narrow).
  set (w := initial_world no_params initial_statics).
  assert (Hkind1 : is_DepthFrame c1 = false) by reflexivity.
  assert (Hkind2 : is_DepthFrame c2 = false) by reflexivity.
  assert (Hmerge : interleave (events (dispatch c1 w)) (events (dispatch c2 w))
                     (events (dispatch c1 w) ++ events (dispatch c2 w))%list).
  { cbn. repeat constructor. }
  assert (Hok : mutex_ok false (events (dispatch c1 w) ++ events (dispatch c2 w))%list
                = true) by reflexivity.
  exact (conj Hkind1 (conj Hkind2 (conj Hmerge (conj Hok
           (locked_calls_serialize c1 c2 w w _ Hkind1 Hkind2 Hmerge Hok))))).
Defined.

Lemma refresh_can_open_gate_witness :
  let w := initial_world no_params initial_statics in
  let w' := final (refreshTagParameters params_tf w) in
  skip_detection (nobody 1) (session w) = true
  /\ get_publish_tf (new_TagDetector params_tf) = true
  /\ skip_detection (nobody 1) (session w') = false
  /\ conversions (events (imageCallback (nobody 1) color_ok tt w')) = [color_ok].
Proof.
  cbv zeta.
  assert (Htf : get_publish_tf (new_TagDetector params_tf) = true) by reflexivity.
  exact (conj eq_refl (conj Htf
           (refresh_can_open_gate params_tf
               (initial_world no_params initial_statics) (nobody 1)
              color_ok tt Htf))).
Defined.

(** The throttle at work on doubles.  Colour frames at [ros::Time(2, 17)]
    and [ros::Time(4, 17)], with no depth frame: the sum of the first time
    and 2.0 rounds down to the second, the check passes and both frames
    print the warning. *)
Lemma warnings_at_rounded_distance :
  let t1 := (2 + 17 * 0x1.12e0be826d695p-30)%float in
  let t2 := (4 + 17 * 0x1.12e0be826d695p-30)%float in
  let history :=
    [color_frame (one_listener t1) color_ok tt;
     color_frame (one_listener t2) color_ok tt] in
  (t1 + 2 <=? t2)%float = true
  /\ warn_stamps (events (run history (initial_world no_params initial_statics)))
     = [t1; t2].
Proof. cbv zeta. split; reflexivity. Qed.

(** A second nodelet of the class, loaded into a process in which the first
    one has received a depth frame: its own first depth frame becomes
    current and the line of [ROS_INFO_ONCE] is not printed. *)
Lemma second_nodelet_does_not_log_depth_received :
  let left_behind :=
    statics (final (run [depth_frame depth_7m]
                        (initial_world no_params initial_statics))) in
  let o := run [depth_frame depth_2m] (initial_world no_params left_behind) in
  has_depth (cv_depth_ (session (final o))) = true
  /\ info_lines (events o) = [].
Proof. cbv zeta. split; reflexivity. Qed.

(** A queue size of -1 on the parameter server subscribes with
    4294967295. *)
Lemma queue_size_is_unsigned :
  let s := onInit (<["queue_size" := TypeInt (-1)]> no_params) in
  sub_queue_size (camera_image_subscriber_ s) = 4294967295%Z
  /\ sub_queue_size (depth_image_subscriber_ s) = 4294967295%Z.
Proof. cbv zeta. split; reflexivity. Qed.

End HistoryScenarios.
